(** * ADXL343 accelerometer driver

    A shallow embedding of [adxl343.py] (class [ADXL343]) and of the register
    descriptors it is built from, followed by the properties of the driver's
    state model: the cached resolution, the order of bus transactions and
    cache updates, the domain checks of the setters and the conversion of raw
    samples.

    Conventions.
    - A Python [int] is a [Z]; a Python [float] is an IEEE binary64 number
      ([PrimFloat.float]), multiplied with [PrimFloat.mul] and compared with
      an [int] by its exact value.
    - The I2C device is its register file, a function from register address
      to the byte stored there.  Transport failures and the address probe of
      [I2CDevice] are outside the model: every bus transaction succeeds.
    - A method is a computation over the driver object that returns a value
      or raises, the object as the method leaves it, and the bus transactions
      and cache stores it performed, oldest first. *)

From Stdlib Require Import ZArith List String Bool Lia.
From Stdlib Require Import Floats.PrimFloat Floats.SpecFloat Floats.FloatOps.
From Stdlib Require Import Numbers.Cyclic.Int63.Uint63.
From Stdlib Require Import Btauto.
Import ListNotations.

#[local] Set Warnings "-inexact-float".
#[local] Open Scope string_scope.
#[local] Open Scope list_scope.
#[local] Open Scope Z_scope.

(** ** Python values, exceptions *)

Module Py.

(** The values a caller hands to a property setter: the setters are
    annotated [value: int], which Python does not enforce; [bool] is a
    subclass of [int] (the constructor itself assigns [True]); a [float] can
    equal an [int] and so pass a membership test; the getters return
    [str]. *)
Inductive pyval : Type :=
| PInt (z : Z)
| PBool (b : bool)
| PFloat (f : float)
| PStr (s : string).

Inductive exn : Type :=
| RuntimeError (msg : string)
| ValueError (msg : string)
| TypeError
| IndexError
| KeyError
| AttributeError.

Inductive result (A : Type) : Type :=
| Ok (a : A)
| Raise (e : exn).
Arguments Ok {A} a.
Arguments Raise {A} e.

(** The integer an [int] (or [bool]) is; [None] for a [float] or a
    [str]. *)
Definition int_value (v : pyval) : option Z :=
  match v with
  | PInt z => Some z
  | PBool b => Some (Z.b2z b)
  | PFloat _ => None
  | PStr _ => None
  end.

(** [f == z] for a [float] and an [int]: the exact values are compared
    ([3.0 == 3], [-0.0 == 0]); [nan] and the infinities equal no [int]. *)
Definition float_eqb_int (f : float) (z : Z) : bool :=
  match Prim2SF f with
  | S754_zero _ => z =? 0
  | S754_finite s m e =>
      let v := if s then Z.neg m else Z.pos m in
      if 0 <=? e then z =? v * 2 ^ e else v =? z * 2 ^ (- e)
  | _ => false
  end.

(** [a == b]: numbers compare by value ([True == 1], [3.0 == 3]), strings
    by content, a string never equals a number. *)
Definition py_eq (a b : pyval) : bool :=
  match a, b with
  | PStr s, PStr t => String.eqb s t
  | PStr _, _ => false
  | _, PStr _ => false
  | PFloat x, PFloat y => PrimFloat.eqb x y
  | PFloat x, y => match int_value y with
                   | Some z => float_eqb_int x z
                   | None => false
                   end
  | x, PFloat y => match int_value x with
                   | Some z => float_eqb_int y z
                   | None => false
                   end
  | PInt x, PInt y => x =? y
  | PInt x, PBool y => x =? Z.b2z y
  | PBool x, PInt y => Z.b2z x =? y
  | PBool x, PBool y => Bool.eqb x y
  end.

(** [value in t] for a tuple [t]. *)
Definition py_in (value : pyval) (t : list pyval) : bool :=
  existsb (py_eq value) t.

(** [t[i]] for a tuple [t] and an integer index, negative indices counting
    from the end. *)
Definition tuple_getitem {A : Type} (t : list A) (i : Z) : result A :=
  let n := Z.of_nat (List.length t) in
  let j := if i <? 0 then i + n else i in
  if (j <? 0) || (n <=? j) then Raise IndexError
  else match nth_error t (Z.to_nat j) with
       | Some a => Ok a
       | None => Raise IndexError
       end.

(** [d[key]] for a dict [d] with integer keys, kept in source order. *)
Fixpoint dict_getitem {A : Type} (d : list (Z * A)) (key : pyval) : result A :=
  match d with
  | [] => Raise KeyError
  | (k, a) :: d' => if py_eq key (PInt k) then Ok a else dict_getitem d' key
  end.

End Py.
Export Py.

(** ** The driver object and the computations over it *)

(** [class ADXL343]: the instance attributes.  [_cached_resolution] does not
    exist until [__init__] assigns it. *)
Record ADXL343 : Type := mkADXL343 {
  i2c_device : Z -> Z;
  _cached_resolution : option float
}.

Inductive event : Type :=
| BusRead (register : Z) (count : nat)
    (* [write_then_readinto]: the register address, then [count] bytes read *)
| BusWrite (register : Z) (data : Z)
    (* [write]: the register address followed by one data byte *)
| CacheStore (resolution : float).
    (* assignment to [self._cached_resolution] *)

Definition M (A : Type) : Type := ADXL343 -> result A * ADXL343 * list event.

Definition ret {A : Type} (a : A) : M A := fun self => (Ok a, self, []).

Definition raise {A : Type} (e : exn) : M A := fun self => (Raise e, self, []).

Definition bind {A B : Type} (m : M A) (k : A -> M B) : M B :=
  fun self =>
    let '(r, self1, t1) := m self in
    match r with
    | Ok a => let '(r2, self2, t2) := k a self1 in (r2, self2, t1 ++ t2)
    | Raise e => (Raise e, self1, t1)
    end.

Definition lift {A : Type} (r : result A) : M A := fun self => (r, self, []).

Notation "x <- m ;; k" := (bind m (fun x => k))
  (at level 61, m at next level, right associativity).
Notation "m ;;; k" := (bind m (fun _ => k))
  (at level 61, right associativity).

Definition outcome {A : Type} (x : result A * ADXL343 * list event) : result A :=
  fst (fst x).
Definition final {A : Type} (x : result A * ADXL343 * list event) : ADXL343 :=
  snd (fst x).
Definition trace {A : Type} (x : result A * ADXL343 * list event) : list event :=
  snd x.

(** ** The register bus *)

Module Bus.

(** The register file with register [a] holding [v]. *)
Definition store (d : Z -> Z) (a v : Z) : Z -> Z :=
  fun r => if r =? a then v else d r.

(** One [write_then_readinto] transaction reading one register. *)
Definition read_register (a : Z) : M Z :=
  fun self => (Ok (i2c_device self a), self, [BusRead a 1]).

(** One [write_then_readinto] transaction reading [n] consecutive registers
    starting at [a]. *)
Definition read_block (a : Z) (n : nat) : M (list Z) :=
  fun self =>
    (Ok (map (fun k => i2c_device self (a + Z.of_nat k)) (seq 0 n)), self,
     [BusRead a n]).

(** One [write] transaction storing the byte [v] in register [a]. *)
Definition write_register (a v : Z) : M unit :=
  fun self =>
    (Ok tt,
     mkADXL343 (store (i2c_device self) a v) (_cached_resolution self),
     [BusWrite a v]).

End Bus.

(** *** [adafruit_register.i2c_bits.RWBits] *)

Module RWBits.

Record t : Type := new {
  num_bits : Z;
  register_address : Z;
  lowest_bit : Z
}.

(** [((1 << num_bits) - 1) << lowest_bit] *)
Definition bit_mask (f : t) : Z :=
  Z.shiftl (Z.shiftl 1 (num_bits f) - 1) (lowest_bit f).

(** [(reg & bit_mask) >> lowest_bit] *)
Definition extract (f : t) (reg : Z) : Z :=
  Z.shiftr (Z.land reg (bit_mask f)) (lowest_bit f).

(** [reg &= ~bit_mask; reg |= value << lowest_bit], and the byte of it that
    goes back into the one-byte buffer. *)
Definition insert (f : t) (value reg : Z) : Z :=
  Z.land (Z.lor (Z.land reg (Z.lnot (bit_mask f)))
                (Z.shiftl value (lowest_bit f)))
         255.

(** [__get__]: read the register, keep the field. *)
Definition get (f : t) : M Z :=
  reg <- Bus.read_register (register_address f) ;;
  ret (extract f reg).

(** [__set__]: shift the value ([value <<= lowest_bit] is a [TypeError] for
    a [float] or a [str]), read the register, replace the field, write the
    register back. *)
Definition set (f : t) (value : pyval) : M unit :=
  match int_value value with
  | None => raise TypeError
  | Some v =>
      reg <- Bus.read_register (register_address f) ;;
      Bus.write_register (register_address f) (insert f v reg)
  end.

End RWBits.

(** *** [adafruit_register.i2c_struct]: [ROUnaryStruct] with format ["B"] and
    [Struct] with format ["<hhh"] *)

Module Struct.

(** [ROUnaryStruct(address, "B").__get__]: one unsigned byte. *)
Definition get_B (address : Z) : M Z := Bus.read_register address.

(** A little-endian signed 16-bit word from its two bytes (format [h]). *)
Definition unpack_h (lo hi : Z) : Z :=
  let u := lo + 256 * hi in
  if u <? 32768 then u else u - 65536.

(** The two bytes of a signed 16-bit word, low byte first. *)
Definition pack_h (x : Z) : Z * Z := (x mod 256, (x / 256) mod 256).

(** [Struct(address, "<hhh").__get__]: six bytes in one transaction,
    unpacked as three signed words. *)
Definition get_hhh (address : Z) : M (Z * Z * Z) :=
  buf <- Bus.read_block address 6 ;;
  match buf with
  | [x0; x1; y0; y1; z0; z1] =>
      ret (unpack_h x0 x1, unpack_h y0 y1, unpack_h z0 z1)
  | _ => raise (ValueError "unpack requires a buffer of 6 bytes")
  end.

End Struct.

(** ** [adxl343.py] *)

(** [x * 1.0] for an [int] [x]: the conversion to [float], exact for the
    16-bit counts the device delivers. *)
Definition float_of_int (x : Z) : float :=
  if x <? 0 then PrimFloat.opp (PrimFloat.of_uint63 (Uint63.of_Z (- x)))
  else PrimFloat.of_uint63 (Uint63.of_Z x).

Definition _STANDARD_GRAVITY : float := 9.80665%float.
Definition _REG_WHOAMI : Z := 0x00.
Definition _POWER_CTL : Z := 0x2D.
Definition _DATA_FORMAT : Z := 0x31.
Definition _ACC : Z := 0x32.

Definition STANDBY : Z := 0.
Definition READY : Z := 1.
Definition measurement_mode_values : list pyval := [PInt STANDBY; PInt READY].

Definition LOW_RES : Z := 0.
Definition HIGH_RES : Z := 1.
Definition resolution_mode_values : list pyval := [PInt LOW_RES; PInt HIGH_RES].

Definition RANGE_2 : Z := 0.
Definition RANGE_4 : Z := 1.
Definition RANGE_8 : Z := 2.
Definition RANGE_16 : Z := 3.
Definition acceleration_range_values : list pyval :=
  [PInt RANGE_2; PInt RANGE_4; PInt RANGE_8; PInt RANGE_16].

(** The class attributes (register descriptors). *)
Definition _measurement_mode : RWBits.t := RWBits.new 1 _POWER_CTL 3.
Definition _resolution_mode : RWBits.t := RWBits.new 1 _DATA_FORMAT 3.
Definition _acceleration_range : RWBits.t := RWBits.new 2 _DATA_FORMAT 0.

(** [self._cached_resolution = r] *)
Definition store_cached_resolution (r : float) : M unit :=
  fun self => (Ok tt, mkADXL343 (i2c_device self) (Some r), [CacheStore r]).

(** [self._cached_resolution] as an expression. *)
Definition load_cached_resolution : M float :=
  fun self =>
    match _cached_resolution self with
    | Some r => (Ok r, self, [])
    | None => (Raise AttributeError, self, [])
    end.

(** The dict literal [{0: 0.004, 1: 0.008, 2: 0.016, 3: 0.031}] of both
    setters. *)
Definition res_values : list (Z * float) :=
  [(0, 0.004%float); (1, 0.008%float); (2, 0.016%float); (3, 0.031%float)].

Definition __init__ : M unit :=
  device_id <- Struct.get_B _REG_WHOAMI ;;
  if negb (device_id =? 0xE5) then
    raise (RuntimeError "Failed to find ADXL343")
  else
    RWBits.set _measurement_mode (PBool true) ;;;
    RWBits.set _resolution_mode (PBool true) ;;;
    store_cached_resolution 0.004%float.

(** [ADXL343(i2c_bus)]: a fresh object holding the device handle, then
    [__init__] on it. *)
Definition ADXL343_new (i2c_bus : Z -> Z) : result unit * ADXL343 * list event :=
  __init__ (mkADXL343 i2c_bus None).

(** The instance the constructor call evaluates to, when there is one. *)
Definition instance (i2c_bus : Z -> Z) : option ADXL343 :=
  match outcome (ADXL343_new i2c_bus) with
  | Ok _ => Some (final (ADXL343_new i2c_bus))
  | Raise _ => None
  end.

Definition measurement_mode : M string :=
  let values := ["STANDBY"; "READY"] in
  i <- RWBits.get _measurement_mode ;;
  lift (tuple_getitem values i).

Definition measurement_mode_setter (value : pyval) : M unit :=
  if negb (py_in value measurement_mode_values) then
    raise (ValueError "Value must be a valid measurement_mode setting")
  else
    RWBits.set _measurement_mode value.

Definition acceleration : M (float * float * float) :=
  sample <- Struct.get_hhh _ACC ;;
  let '(x, y, z) := sample in
  rx <- load_cached_resolution ;;
  let x := (float_of_int x * _STANDARD_GRAVITY * rx)%float in
  ry <- load_cached_resolution ;;
  let y := (float_of_int y * _STANDARD_GRAVITY * ry)%float in
  rz <- load_cached_resolution ;;
  let z := (float_of_int z * _STANDARD_GRAVITY * rz)%float in
  ret (x, y, z).

Definition acceleration_range : M string :=
  let values := ["RANGE_2"; "RANGE_4"; "RANGE_8"; "RANGE_16"] in
  i <- RWBits.get _acceleration_range ;;
  lift (tuple_getitem values i).

Definition acceleration_range_setter (value : pyval) : M unit :=
  if negb (py_in value acceleration_range_values) then
    raise (ValueError "Value must be a valid acceleration_range setting")
  else
    mode <- RWBits.get _resolution_mode ;;
    (if mode =? 0 then
       r <- lift (dict_getitem res_values value) ;;
       store_cached_resolution r
     else
       store_cached_resolution 0.004%float) ;;;
    RWBits.set _acceleration_range value.

Definition resolution_mode : M string :=
  let values := ["LOW_RES"; "HIGH_RES"] in
  i <- RWBits.get _resolution_mode ;;
  lift (tuple_getitem values i).

Definition resolution_mode_setter (value : pyval) : M unit :=
  if negb (py_in value resolution_mode_values) then
    raise (ValueError "Value must be a valid resolution_mode setting")
  else
    RWBits.set _resolution_mode value ;;;
    if py_eq value (PInt 0) then
      range <- RWBits.get _acceleration_range ;;
      r <- lift (dict_getitem res_values (PInt range)) ;;
      store_cached_resolution r
    else
      store_cached_resolution 0.004%float.

(** ** Observations of a driver state *)

(** The settings committed on the device: the fields as the register file
    holds them. *)
Definition committed_measurement_mode (self : ADXL343) : Z :=
  RWBits.extract _measurement_mode (i2c_device self _POWER_CTL).
Definition committed_resolution_mode (self : ADXL343) : Z :=
  RWBits.extract _resolution_mode (i2c_device self _DATA_FORMAT).
Definition committed_range (self : ADXL343) : Z :=
  RWBits.extract _acceleration_range (i2c_device self _DATA_FORMAT).

(** The resolution (g per count) for a resolution mode and a range:
    0.004 in [HIGH_RES], and by range in [LOW_RES]. *)
Definition table (mode range : Z) : option float :=
  if mode =? HIGH_RES then Some 0.004%float
  else if mode =? LOW_RES then
    if range =? RANGE_2 then Some 0.004%float
    else if range =? RANGE_4 then Some 0.008%float
    else if range =? RANGE_8 then Some 0.016%float
    else if range =? RANGE_16 then Some 0.031%float
    else None
  else None.

(** The cache holds the table's value for the committed mode and range. *)
Definition cache_consistent (self : ADXL343) : Prop :=
  exists r, _cached_resolution self = Some r /\
            table (committed_resolution_mode self) (committed_range self) = Some r.

(** The cache is consistent and the two configuration registers hold
    bytes. *)
Definition stable (self : ADXL343) : Prop :=
  cache_consistent self /\
  0 <= i2c_device self _POWER_CTL < 256 /\
  0 <= i2c_device self _DATA_FORMAT < 256.

(** Two driver states with the same cache and the same register contents. *)
Definition same_state (a b : ADXL343) : Prop :=
  _cached_resolution a = _cached_resolution b /\
  forall r, i2c_device a r = i2c_device b r.

(** The value is the number [z]: an [int] or [bool] that is [z], or a
    [float] whose exact value is [z]. *)
Definition denotes (value : pyval) (z : Z) : Prop :=
  match value with
  | PInt x => x = z
  | PBool b => Z.b2z b = z
  | PFloat f => float_eqb_int f z = true
  | PStr _ => False
  end.

(** A value of a setting's domain: a number that is one of the declared
    constants. *)
Definition in_domain (value : pyval) (domain : list Z) : Prop :=
  exists z, In z domain /\ denotes value z.

Definition measurement_modes : list Z := [STANDBY; READY].
Definition resolution_modes : list Z := [LOW_RES; HIGH_RES].
Definition ranges : list Z := [RANGE_2; RANGE_4; RANGE_8; RANGE_16].

(** The public operations and the states they lead to. *)
Inductive call : Type :=
| Get_measurement_mode
| Set_measurement_mode (value : pyval)
| Get_resolution_mode
| Set_resolution_mode (value : pyval)
| Get_acceleration_range
| Set_acceleration_range (value : pyval)
| Get_acceleration.

Definition perform (c : call) (self : ADXL343) : ADXL343 :=
  match c with
  | Get_measurement_mode => final (measurement_mode self)
  | Set_measurement_mode value => final (measurement_mode_setter value self)
  | Get_resolution_mode => final (resolution_mode self)
  | Set_resolution_mode value => final (resolution_mode_setter value self)
  | Get_acceleration_range => final (acceleration_range self)
  | Set_acceleration_range value => final (acceleration_range_setter value self)
  | Get_acceleration => final (acceleration self)
  end.

(** The states of a driver that was constructed successfully and then used
    through its public operations, whether a call returned or raised. *)
Inductive reachable : ADXL343 -> Prop :=
| reachable_new (i2c_bus : Z -> Z) :
    outcome (ADXL343_new i2c_bus) = Ok tt ->
    reachable (final (ADXL343_new i2c_bus))
| reachable_call (c : call) (self : ADXL343) :
    reachable self -> reachable (perform c self).



(** The cache is set, holds 0.004 when the device is in [HIGH_RES], and the
    two configuration registers hold bytes. *)
Definition settled (self : ADXL343) : Prop :=
  (exists r, _cached_resolution self = Some r /\
             (committed_resolution_mode self = HIGH_RES -> r = 0.004%float)) /\
  0 <= i2c_device self _POWER_CTL < 256 /\
  0 <= i2c_device self _DATA_FORMAT < 256.

(** *** Order of events in a trace *)

Definition is_write (e : event) : bool :=
  match e with BusWrite _ _ => true | _ => false end.
Definition is_store (e : event) : bool :=
  match e with CacheStore _ => true | _ => false end.

(** No bus write happens before the first cache store: every bus write of
    the trace has a cache store somewhere before it. *)
Fixpoint writes_after_store (t : list event) : bool :=
  match t with
  | [] => true
  | e :: t' =>
      if is_store e then true
      else if is_write e then false
      else writes_after_store t'
  end.

(** The bus writes of a trace, in order. *)
Definition writes (t : list event) : list event := filter is_write t.

(** The registers hold the little-endian words of the sample [(x, y, z)]. *)
Definition holds_sample (d : Z -> Z) (x y z : Z) : Prop :=
  (d _ACC, d (_ACC + 1)) = Struct.pack_h x /\
  (d (_ACC + 2), d (_ACC + 3)) = Struct.pack_h y /\
  (d (_ACC + 4), d (_ACC + 5)) = Struct.pack_h z.

Definition int16 (x : Z) : Prop := -32768 <= x < 32768.

(** [adx.setting = adx.setting]: what a getter returns, handed to the
    setter of the same property. *)
Definition get_then_set (getter : M string) (setter : pyval -> M unit) : M unit :=
  name <- getter ;; setter (PStr name).

(** *** Example devices and drivers *)

(** A device that answers the identity read; its registers hold [LOW_RES]
    with [RANGE_8] and the sample (1000, -500, 0). *)
Definition example_bus : Z -> Z :=
  fun a =>
    if a =? 0x00 then 0xE5
    else if a =? 0x31 then 0x02
    else if a =? 0x32 then 0xE8
    else if a =? 0x33 then 0x03
    else if a =? 0x34 then 0x0C
    else if a =? 0x35 then 0xFE
    else 0.

(** The driver constructed on it: [HIGH_RES], [RANGE_8], cache 0.004. *)
Definition example_driver : ADXL343 := final (ADXL343_new example_bus).

(** The same driver after [acceleration_range = RANGE_16] and
    [resolution_mode = LOW_RES]. *)
Definition example_low_res_driver : ADXL343 :=
  perform (Set_resolution_mode (PInt LOW_RES))
    (perform (Set_acceleration_range (PInt RANGE_16)) example_driver).

(** A bus with nothing at the identity register. *)
Definition absent_bus : Z -> Z := fun _ => 0.

(** The example driver put in [LOW_RES] with [RANGE_2]: cache 0.004. *)
Definition example_low_res_2_driver : ADXL343 :=
  perform (Set_resolution_mode (PInt LOW_RES))
    (perform (Set_acceleration_range (PInt RANGE_2)) example_driver).

(** That driver after [acceleration_range = 3.0], which raises, and
    [measurement_mode = READY], which returns. *)
Definition example_stale_driver : ADXL343 :=
  perform (Set_measurement_mode (PInt READY))
    (perform (Set_acceleration_range (PFloat 3)) example_low_res_2_driver).

(** ** The rest of the class and of its use *)

(** The class attribute [needed_info = UnaryStruct(_POWER_CTL, "B")], read:
    [UnaryStruct.__get__] is one register read, unpacked as an unsigned
    byte. *)
Definition needed_info : M Z := Struct.get_B _POWER_CTL.

(** What a public call does on the bus and to the cache. *)
Definition call_trace (c : call) (self : ADXL343) : list event :=
  match c with
  | Get_measurement_mode => trace (measurement_mode self)
  | Set_measurement_mode value => trace (measurement_mode_setter value self)
  | Get_resolution_mode => trace (resolution_mode self)
  | Set_resolution_mode value => trace (resolution_mode_setter value self)
  | Get_acceleration_range => trace (acceleration_range self)
  | Set_acceleration_range value => trace (acceleration_range_setter value self)
  | Get_acceleration => trace (acceleration self)
  end.

(** A register byte. *)
Definition byte (v : Z) : Prop := 0 <= v < 256.

(** [x * _STANDARD_GRAVITY * r] for a raw count [x], as [acceleration]
    computes it. *)
Definition scaled (x : Z) (r : float) : float :=
  (float_of_int x * _STANDARD_GRAVITY * r)%float.

(** The counts the six data registers hold. *)
Definition raw_sample (d : Z -> Z) : Z * Z * Z :=
  (Struct.unpack_h (d _ACC) (d (_ACC + 1)),
   Struct.unpack_h (d (_ACC + 2)) (d (_ACC + 3)),
   Struct.unpack_h (d (_ACC + 4)) (d (_ACC + 5))).

(** The names the getters index with the field value. *)
Definition measurement_mode_names : list string := ["STANDBY"; "READY"].
Definition resolution_mode_names : list string := ["LOW_RES"; "HIGH_RES"].
Definition acceleration_range_names : list string :=
  ["RANGE_2"; "RANGE_4"; "RANGE_8"; "RANGE_16"].

(** * Properties *)

(** ** Bit fields of a one-byte register *)

Section Fields.
Import RWBits.
Variable f : RWBits.t.
Hypothesis Hlow : 0 <= lowest_bit f.
Hypothesis Hnum : 0 <= num_bits f.

Lemma small_testbit v n i : 0 <= v < 2 ^ n -> n <= i -> Z.testbit v i = false.
Proof.
  intros Hv Hi. destruct (Z.eq_dec v 0) as [->|Hz]; [apply Z.testbit_0_l|].
  apply Z.bits_above_log2; [lia|].
  apply Z.lt_le_trans with n; [|lia].
  apply Z.log2_lt_pow2; lia.
Qed.

Lemma testbit_bit_mask i :
  0 <= i ->
  Z.testbit (bit_mask f) i
  = (lowest_bit f <=? i) && (i <? lowest_bit f + num_bits f).
Proof.
  intros Hi. unfold bit_mask.
  replace (Z.shiftl 1 (num_bits f) - 1) with (Z.ones (num_bits f))
    by (rewrite Z.ones_equiv, Z.shiftl_1_l; lia).
  rewrite Z.shiftl_spec by lia.
  destruct (Z.leb_spec (lowest_bit f) i).
  - rewrite Z.testbit_ones_nonneg by lia.
    destruct (Z.ltb_spec (i - lowest_bit f) (num_bits f)),
             (Z.ltb_spec i (lowest_bit f + num_bits f)); simpl; lia.
  - rewrite Z.testbit_neg_r by lia. reflexivity.
Qed.

Lemma testbit_extract reg i :
  0 <= i ->
  Z.testbit (extract f reg) i
  = Z.testbit reg (i + lowest_bit f) && (i <? num_bits f).
Proof.
  intros Hi. unfold extract.
  rewrite Z.shiftr_spec, Z.land_spec, testbit_bit_mask by lia.
  destruct (Z.leb_spec (lowest_bit f) (i + lowest_bit f)); [|lia].
  f_equal. simpl.
  destruct (Z.ltb_spec (i + lowest_bit f) (lowest_bit f + num_bits f)),
           (Z.ltb_spec i (num_bits f)); simpl; lia.
Qed.

Lemma testbit_insert v reg i :
  0 <= i ->
  Z.testbit (insert f v reg) i
  = (i <? 8) && ((Z.testbit reg i && negb (Z.testbit (bit_mask f) i))
                 || Z.testbit v (i - lowest_bit f)).
Proof.
  intros Hi. unfold insert. change 255 with (Z.ones 8).
  rewrite Z.land_spec, Z.lor_spec, Z.land_spec, Z.lnot_spec, Z.shiftl_spec
    by lia.
  rewrite Z.testbit_ones_nonneg by lia. btauto.
Qed.

(** A field read is a number of [num_bits] bits. *)
Lemma extract_range reg : 0 <= extract f reg < 2 ^ num_bits f.
Proof.
  assert (E : extract f reg
              = Z.land (Z.shiftr reg (lowest_bit f)) (Z.ones (num_bits f))).
  { apply Z.bits_inj'; intros i Hi.
    rewrite testbit_extract, Z.land_spec, Z.shiftr_spec,
      Z.testbit_ones_nonneg by lia.
    reflexivity. }
  rewrite E, Z.land_ones by lia.
  apply Z.mod_pos_bound. apply Z.pow_pos_nonneg; lia.
Qed.

(** What goes back to the register is a byte. *)
Lemma insert_byte v reg : 0 <= insert f v reg < 256.
Proof.
  unfold insert. change 255 with (Z.ones 8). rewrite Z.land_ones by lia.
  apply Z.mod_pos_bound. reflexivity.
Qed.

(** Bits of the byte outside the field survive a field write. *)
Lemma insert_other_bits v reg i :
  0 <= v < 2 ^ num_bits f -> 0 <= i < 8 ->
  Z.testbit (bit_mask f) i = false ->
  Z.testbit (insert f v reg) i = Z.testbit reg i.
Proof.
  intros Hv Hi Hm. rewrite testbit_insert, Hm by lia.
  rewrite testbit_bit_mask in Hm by lia.
  destruct (Z.ltb_spec i 8); [|lia].
  destruct (Z.leb_spec (lowest_bit f) i).
  - destruct (Z.ltb_spec i (lowest_bit f + num_bits f)); [discriminate|].
    rewrite (small_testbit v (num_bits f)) by lia. simpl. btauto.
  - rewrite (Z.testbit_neg_r _ (i - lowest_bit f)) by lia. simpl. btauto.
Qed.

Hypothesis Hfit : lowest_bit f + num_bits f <= 8.

(** Reading a field gives what was last written to it. *)
Lemma extract_insert v reg :
  0 <= v < 2 ^ num_bits f -> extract f (insert f v reg) = v.
Proof.
  intros Hv. apply Z.bits_inj'; intros i Hi.
  rewrite testbit_extract, testbit_insert, testbit_bit_mask by lia.
  replace (i + lowest_bit f - lowest_bit f) with i by lia.
  destruct (Z.ltb_spec i (num_bits f)).
  - destruct (Z.ltb_spec (i + lowest_bit f) 8); [|lia].
    destruct (Z.leb_spec (lowest_bit f) (i + lowest_bit f)); [|lia].
    destruct (Z.ltb_spec (i + lowest_bit f) (lowest_bit f + num_bits f));
      [|lia].
    simpl. btauto.
  - rewrite (small_testbit v (num_bits f)) by lia. btauto.
Qed.

(** Writing back the value a field already has leaves a byte as it is. *)
Lemma insert_extract reg :
  0 <= reg < 256 -> insert f (extract f reg) reg = reg.
Proof.
  intros Hr. apply Z.bits_inj'; intros i Hi.
  rewrite testbit_insert, testbit_bit_mask by lia.
  destruct (Z.ltb_spec i 8).
  - destruct (Z.leb_spec (lowest_bit f) i).
    + rewrite testbit_extract by lia.
      replace (i - lowest_bit f + lowest_bit f) with i by lia.
      destruct (Z.ltb_spec i (lowest_bit f + num_bits f)),
               (Z.ltb_spec (i - lowest_bit f) (num_bits f));
        try lia; simpl; btauto.
    + rewrite (Z.testbit_neg_r _ (i - lowest_bit f)) by lia. simpl. btauto.
  - rewrite (small_testbit reg 8) by lia. reflexivity.
Qed.

(** A field write leaves every field of the byte that shares no bit with
    it as it was. *)
Lemma extract_insert_other (g : RWBits.t) v reg :
  0 <= lowest_bit g -> 0 <= num_bits g -> lowest_bit g + num_bits g <= 8 ->
  lowest_bit g + num_bits g <= lowest_bit f
    \/ lowest_bit f + num_bits f <= lowest_bit g ->
  0 <= v < 2 ^ num_bits f ->
  extract g (insert f v reg) = extract g reg.
Proof.
  intros Hgl Hgn Hgf Hdis Hv. apply Z.bits_inj'; intros i Hi.
  unfold extract.
  rewrite !Z.shiftr_spec, !Z.land_spec by lia.
  destruct (Z.testbit (bit_mask g) (i + lowest_bit g)) eqn:Hg;
    [|now rewrite !andb_false_r].
  rewrite !andb_true_r.
  unfold bit_mask in Hg.
  replace (Z.shiftl 1 (num_bits g) - 1) with (Z.ones (num_bits g)) in Hg
    by (rewrite Z.ones_equiv, Z.shiftl_1_l; lia).
  rewrite Z.shiftl_spec in Hg by lia.
  replace (i + lowest_bit g - lowest_bit g) with i in Hg by lia.
  rewrite Z.testbit_ones_nonneg in Hg by lia.
  apply Z.ltb_lt in Hg.
  apply insert_other_bits; [assumption|lia|].
  rewrite testbit_bit_mask by lia.
  destruct (Z.leb_spec (lowest_bit f) (i + lowest_bit g)),
           (Z.ltb_spec (i + lowest_bit g) (lowest_bit f + num_bits f));
    simpl; try reflexivity; lia.
Qed.

End Fields.

(** ** Python membership and the declared domains *)

Lemma py_eq_int value z k :
  int_value value = Some z -> py_eq value (PInt k) = (z =? k).
Proof. destruct value; simpl; intros [= <-]; reflexivity. Qed.

Lemma py_in_int value z (D : list Z) :
  int_value value = Some z ->
  py_in value (map PInt D) = existsb (Z.eqb z) D.
Proof.
  intros Hv. unfold py_in. induction D as [|k D IH]; simpl; [reflexivity|].
  now rewrite (py_eq_int _ _ _ Hv), IH.
Qed.

Lemma py_in_str s (D : list Z) : py_in (PStr s) (map PInt D) = false.
Proof. unfold py_in. induction D; simpl; auto. Qed.

Lemma py_eq_denotes value k : py_eq value (PInt k) = true <-> denotes value k.
Proof.
  destruct value as [x|b|f|s]; cbn [py_eq denotes int_value].
  - apply Z.eqb_eq.
  - apply Z.eqb_eq.
  - reflexivity.
  - split; [discriminate|contradiction].
Qed.

Lemma py_in_domain value (D : list Z) :
  py_in value (map PInt D) = true <-> in_domain value D.
Proof.
  unfold in_domain, py_in. rewrite existsb_exists. split.
  - intros [v [Hv He]]. apply in_map_iff in Hv. destruct Hv as [k [<- Hk]].
    exists k. split; [exact Hk|]. now apply py_eq_denotes.
  - intros [k [Hk Hd]]. exists (PInt k). split; [now apply in_map|].
    now apply py_eq_denotes.
Qed.

Lemma int_in_domain value z (D : list Z) :
  int_value value = Some z -> In z D -> in_domain value D.
Proof.
  intros Hv Hz. exists z. split; [exact Hz|].
  destruct value; cbn in *; congruence.
Qed.

Lemma py_in_not_domain value (D : list Z) :
  py_in value (map PInt D) = false <-> ~ in_domain value D.
Proof.
  rewrite <- py_in_domain. destruct (py_in value (map PInt D)); split; congruence.
Qed.

Lemma dict_table value z :
  int_value value = Some z ->
  dict_getitem res_values value
  = match table LOW_RES z with Some r => Ok r | None => Raise KeyError end.
Proof.
  intros Hv. unfold res_values, table. simpl.
  rewrite !(py_eq_int _ _ _ Hv).
  unfold RANGE_2, RANGE_4, RANGE_8, RANGE_16.
  repeat match goal with |- context [z =? ?k] => destruct (z =? k) end; reflexivity.
Qed.

Lemma get_run f self :
  RWBits.get f self
  = (Ok (RWBits.extract f (i2c_device self (RWBits.register_address f))), self,
     [BusRead (RWBits.register_address f) 1]).
Proof. reflexivity. Qed.

Lemma set_run f value v self :
  int_value value = Some v ->
  RWBits.set f value self
  = (Ok tt,
     mkADXL343 (Bus.store (i2c_device self) (RWBits.register_address f)
                  (RWBits.insert f v (i2c_device self (RWBits.register_address f))))
               (_cached_resolution self),
     [BusRead (RWBits.register_address f) 1;
      BusWrite (RWBits.register_address f)
        (RWBits.insert f v (i2c_device self (RWBits.register_address f)))]).
Proof. intros Hv. unfold RWBits.set. rewrite Hv. reflexivity. Qed.

Lemma store_same d a v : Bus.store d a v a = v.
Proof. unfold Bus.store. now rewrite Z.eqb_refl. Qed.

Lemma store_other d a v r : r <> a -> Bus.store d a v r = d r.
Proof. unfold Bus.store. intros H. apply Z.eqb_neq in H. now rewrite H. Qed.

Lemma table_low_some range :
  0 <= range < 4 -> exists r, table LOW_RES range = Some r.
Proof.
  intros H. assert (range = 0 \/ range = 1 \/ range = 2 \/ range = 3) as [ -> | [ -> | [ -> | -> ] ] ] by lia;
  eexists; reflexivity.
Qed.

Ltac field_side :=
  cbv [RWBits.lowest_bit RWBits.num_bits RWBits.register_address
       _measurement_mode _resolution_mode _acceleration_range
       _POWER_CTL _DATA_FORMAT
       STANDBY READY LOW_RES HIGH_RES RANGE_2 RANGE_4 RANGE_8 RANGE_16 Z.b2z]
    in *;
  lia.

Lemma resolution_mode_setter_run self value z :
  int_value value = Some z -> In z resolution_modes ->
  let d := i2c_device self in
  let b := RWBits.insert _resolution_mode z (d _DATA_FORMAT) in
  exists r,
    table z (RWBits.extract _acceleration_range (d _DATA_FORMAT)) = Some r /\
    resolution_mode_setter value self
    = (Ok tt, mkADXL343 (Bus.store d _DATA_FORMAT b) (Some r),
       [BusRead _DATA_FORMAT 1; BusWrite _DATA_FORMAT b]
       ++ (if z =? LOW_RES then [BusRead _DATA_FORMAT 1] else [])
       ++ [CacheStore r]).
Proof.
  intros Hv Hz d b.
  assert (Hin : py_in value resolution_mode_values = true).
  { apply (py_in_domain value resolution_modes). eauto using int_in_domain. }
  unfold resolution_mode_setter, bind. rewrite Hin. cbv beta iota delta [negb].
  rewrite (set_run _ _ _ _ Hv), (py_eq_int _ _ _ Hv). cbv beta iota.
  destruct Hz as [<-|[<-|[]]].
  - change (LOW_RES =? 0) with true. cbv beta iota. rewrite get_run.
    cbv beta iota. 
    change (RWBits.register_address _resolution_mode) with _DATA_FORMAT.
    change (RWBits.register_address _acceleration_range) with _DATA_FORMAT.
    cbn [i2c_device _cached_resolution]. rewrite store_same.
    fold d. fold b.
    assert (E : RWBits.extract _acceleration_range b = RWBits.extract _acceleration_range (d _DATA_FORMAT)).
    { apply extract_insert_other; field_side. }
    destruct (table_low_some (RWBits.extract _acceleration_range (d _DATA_FORMAT))) as [r Hr].
    { apply (extract_range _acceleration_range); field_side. }
    exists r. split; [exact Hr|].
    unfold lift. rewrite (dict_table (PInt _) _ eq_refl), E, Hr. reflexivity.
  - exists 0.004%float. split; reflexivity.
Qed.

Lemma acceleration_range_setter_run self value z :
  int_value value = Some z -> In z ranges ->
  let d := i2c_device self in
  let b := RWBits.insert _acceleration_range z (d _DATA_FORMAT) in
  exists r,
    table (RWBits.extract _resolution_mode (d _DATA_FORMAT)) z = Some r /\
    acceleration_range_setter value self
    = (Ok tt, mkADXL343 (Bus.store d _DATA_FORMAT b) (Some r),
       [BusRead _DATA_FORMAT 1; CacheStore r;
        BusRead _DATA_FORMAT 1; BusWrite _DATA_FORMAT b]).
Proof.
  intros Hv Hz d b.
  assert (Hin : py_in value acceleration_range_values = true).
  { apply (py_in_domain value ranges). eauto using int_in_domain. }
  unfold acceleration_range_setter, bind. rewrite Hin.
  cbv beta iota delta [negb]. rewrite get_run. cbv beta iota.
  change (RWBits.register_address _resolution_mode) with _DATA_FORMAT.
  fold d.
  pose proof (extract_range _resolution_mode ltac:(field_side) ltac:(field_side)
                (d _DATA_FORMAT)) as Hm.
  change (2 ^ RWBits.num_bits _resolution_mode) with 2 in Hm.
  destruct (table_low_some z) as [r Hr].
  { destruct Hz as [<-|[<-|[<-|[<-|[]]]]]; field_side. }
  assert (RWBits.extract _resolution_mode (d _DATA_FORMAT) = 0
          \/ RWBits.extract _resolution_mode (d _DATA_FORMAT) = 1) as [E|E] by lia;
    rewrite E; cbv beta iota delta [Z.eqb].
  - exists r. split; [exact Hr|].
    unfold lift. rewrite (dict_table _ _ Hv), Hr. cbv beta iota.
    unfold store_cached_resolution at 1. cbv beta iota.
    rewrite (set_run _ _ _ _ Hv). reflexivity.
  - exists 0.004%float. split; [reflexivity|].
    unfold store_cached_resolution at 1. cbv beta iota.
    rewrite (set_run _ _ _ _ Hv). reflexivity.
Qed.

Lemma measurement_mode_setter_run self value z :
  int_value value = Some z -> In z measurement_modes ->
  let d := i2c_device self in
  let b := RWBits.insert _measurement_mode z (d _POWER_CTL) in
  measurement_mode_setter value self
  = (Ok tt, mkADXL343 (Bus.store d _POWER_CTL b) (_cached_resolution self),
     [BusRead _POWER_CTL 1; BusWrite _POWER_CTL b]).
Proof.
  intros Hv Hz d b.
  assert (Hin : py_in value measurement_mode_values = true).
  { apply (py_in_domain value measurement_modes). eauto using int_in_domain. }
  unfold measurement_mode_setter. rewrite Hin. cbv beta iota delta [negb].
  rewrite (set_run _ _ _ _ Hv). reflexivity.
Qed.

(** A value outside the domain: the setter raises before anything else. *)
Lemma measurement_mode_setter_reject self value :
  ~ in_domain value measurement_modes ->
  measurement_mode_setter value self
  = (Raise (ValueError "Value must be a valid measurement_mode setting"), self, []).
Proof.
  intros H. apply (py_in_not_domain value measurement_modes) in H.
  unfold measurement_mode_setter.
  change measurement_mode_values with (map PInt measurement_modes).
  rewrite H. reflexivity.
Qed.

Lemma resolution_mode_setter_reject self value :
  ~ in_domain value resolution_modes ->
  resolution_mode_setter value self
  = (Raise (ValueError "Value must be a valid resolution_mode setting"), self, []).
Proof.
  intros H. apply (py_in_not_domain value resolution_modes) in H.
  unfold resolution_mode_setter.
  change resolution_mode_values with (map PInt resolution_modes).
  rewrite H. reflexivity.
Qed.

Lemma acceleration_range_setter_reject self value :
  ~ in_domain value ranges ->
  acceleration_range_setter value self
  = (Raise (ValueError "Value must be a valid acceleration_range setting"), self, []).
Proof.
  intros H. apply (py_in_not_domain value ranges) in H.
  unfold acceleration_range_setter.
  change acceleration_range_values with (map PInt ranges).
  rewrite H. reflexivity.
Qed.

Lemma in_domain_dec value (D : list Z) : in_domain value D \/ ~ in_domain value D.
Proof.
  destruct (py_in value (map PInt D)) eqn:E.
  - left. now apply py_in_domain.
  - right. now apply py_in_not_domain.
Qed.

(** The three ways a setter can go: an [int] or [bool] of the domain, a
    [float] that equals a constant of the domain, or a value outside it. *)
Lemma setter_cases value (D : list Z) :
  (exists z, int_value value = Some z /\ In z D)
  \/ (exists f, value = PFloat f /\ py_in value (map PInt D) = true)
  \/ ~ in_domain value D.
Proof.
  destruct (in_domain_dec value D) as [Hd|Hn]; [|auto].
  destruct value as [x|b|f|s].
  - left. destruct Hd as [z [Hz Hd]]. cbn [denotes] in Hd.
    exists z. split; [cbn; congruence|exact Hz].
  - left. destruct Hd as [z [Hz Hd]]. cbn [denotes] in Hd.
    exists z. split; [cbn [int_value]; congruence|exact Hz].
  - right. left. exists f. split; [reflexivity|now apply py_in_domain].
  - destruct Hd as [z [_ []]].
Qed.

(** A [float] that passes the membership test reaches the register
    descriptor, whose shift raises: in the measurement and resolution mode
    setters that is the first thing after the test. *)
Lemma measurement_mode_setter_float self f :
  py_in (PFloat f) (map PInt measurement_modes) = true ->
  measurement_mode_setter (PFloat f) self = (Raise TypeError, self, []).
Proof.
  intros H. unfold measurement_mode_setter.
  change measurement_mode_values with (map PInt measurement_modes).
  rewrite H. reflexivity.
Qed.

Lemma resolution_mode_setter_float self f :
  py_in (PFloat f) (map PInt resolution_modes) = true ->
  resolution_mode_setter (PFloat f) self = (Raise TypeError, self, []).
Proof.
  intros H. unfold resolution_mode_setter.
  change resolution_mode_values with (map PInt resolution_modes).
  rewrite H. reflexivity.
Qed.

(** In the range setter the mode read and the cache store come first: the
    cache gets the table's value for the constant the float equals
    ([LOW_RES]) or 0.004 ([HIGH_RES]), and the registers stay as they
    were. *)
Lemma acceleration_range_setter_float self f :
  py_in (PFloat f) (map PInt ranges) = true ->
  exists k r,
    In k ranges /\ float_eqb_int f k = true /\
    table (RWBits.extract _resolution_mode (i2c_device self _DATA_FORMAT)) k
    = Some r /\
    acceleration_range_setter (PFloat f) self
    = (Raise TypeError, mkADXL343 (i2c_device self) (Some r),
       [BusRead _DATA_FORMAT 1; CacheStore r]).
Proof.
  intros H. unfold acceleration_range_setter, bind.
  change acceleration_range_values with (map PInt ranges).
  rewrite H. cbv beta iota delta [negb]. rewrite get_run. cbv beta iota.
  change (RWBits.register_address _resolution_mode) with _DATA_FORMAT.
  pose proof (extract_range _resolution_mode ltac:(field_side) ltac:(field_side)
                (i2c_device self _DATA_FORMAT)) as Hm.
  change (2 ^ RWBits.num_bits _resolution_mode) with 2 in Hm.
  cbn [py_in map existsb py_eq int_value ranges] in H.
  unfold RANGE_2, RANGE_4, RANGE_8, RANGE_16 in H.
  assert (RWBits.extract _resolution_mode (i2c_device self _DATA_FORMAT) = 0
          \/ RWBits.extract _resolution_mode (i2c_device self _DATA_FORMAT) = 1)
    as [E|E] by lia; rewrite E; cbv beta iota delta [Z.eqb].
  - unfold lift, res_values. cbn [dict_getitem py_eq int_value].
    destruct (float_eqb_int f 0) eqn:H0;
      [exists 0, 0.004%float; repeat split; auto; left; reflexivity|].
    destruct (float_eqb_int f 1) eqn:H1;
      [exists 1, 0.008%float; repeat split; auto; right; left; reflexivity|].
    destruct (float_eqb_int f 2) eqn:H2;
      [exists 2, 0.016%float; repeat split; auto;
       do 2 right; left; reflexivity|].
    destruct (float_eqb_int f 3) eqn:H3;
      [exists 3, 0.031%float; repeat split; auto;
       do 3 right; left; reflexivity|].
    discriminate H.
  - destruct (float_eqb_int f 0) eqn:H0;
      [exists 0, 0.004%float; repeat split; auto; left; reflexivity|].
    destruct (float_eqb_int f 1) eqn:H1;
      [exists 1, 0.004%float; repeat split; auto; right; left; reflexivity|].
    destruct (float_eqb_int f 2) eqn:H2;
      [exists 2, 0.004%float; repeat split; auto;
       do 2 right; left; reflexivity|].
    destruct (float_eqb_int f 3) eqn:H3;
      [exists 3, 0.004%float; repeat split; auto;
       do 3 right; left; reflexivity|].
    discriminate H.
Qed.

Lemma tuple_getitem_ok {A : Type} (t : list A) i :
  0 <= i < Z.of_nat (List.length t) ->
  exists a, tuple_getitem t i = Ok a /\ nth_error t (Z.to_nat i) = Some a.
Proof.
  intros Hi. unfold tuple_getitem.
  destruct (Z.ltb_spec i 0); [lia|].
  destruct (Z.ltb_spec i 0); [lia|].
  destruct (Z.leb_spec (Z.of_nat (List.length t)) i); [lia|]. simpl.
  destruct (nth_error t (Z.to_nat i)) as [a|] eqn:E; [eauto|].
  apply nth_error_None in E. lia.
Qed.

Lemma getter_run (f : RWBits.t) (values : list string) self :
  0 <= RWBits.lowest_bit f -> 0 <= RWBits.num_bits f ->
  2 ^ RWBits.num_bits f = Z.of_nat (List.length values) ->
  exists name,
    nth_error values
      (Z.to_nat (RWBits.extract f (i2c_device self (RWBits.register_address f))))
    = Some name /\
    (i <- RWBits.get f ;; lift (tuple_getitem values i)) self
    = (Ok name, self, [BusRead (RWBits.register_address f) 1]).
Proof.
  intros Hl Hn Hlen.
  pose proof (extract_range f Hl Hn
                (i2c_device self (RWBits.register_address f))) as Hr.
  rewrite Hlen in Hr.
  destruct (tuple_getitem_ok values _ Hr) as [name [Hg Hnth]].
  exists name. split; [exact Hnth|].
  unfold bind. rewrite get_run. cbv beta iota. unfold lift. rewrite Hg.
  reflexivity.
Qed.

Lemma unpack_pack_h x :
  int16 x -> Struct.unpack_h (fst (Struct.pack_h x)) (snd (Struct.pack_h x)) = x.
Proof.
  unfold int16, Struct.unpack_h, Struct.pack_h. intros Hx. cbn [fst snd].
  destruct (Z.ltb_spec (x mod 256 + 256 * ((x / 256) mod 256)) 32768) as [H|H];
    revert H; Z.div_mod_to_equations; lia.
Qed.

Lemma init_run (i2c_bus : Z -> Z) :
  i2c_bus _REG_WHOAMI = 0xE5 ->
  let pc := RWBits.insert _measurement_mode 1 (i2c_bus _POWER_CTL) in
  let df := RWBits.insert _resolution_mode 1 (i2c_bus _DATA_FORMAT) in
  ADXL343_new i2c_bus
  = (Ok tt,
     mkADXL343 (Bus.store (Bus.store i2c_bus _POWER_CTL pc) _DATA_FORMAT df)
               (Some 0.004%float),
     [BusRead _REG_WHOAMI 1;
      BusRead _POWER_CTL 1; BusWrite _POWER_CTL pc;
      BusRead _DATA_FORMAT 1; BusWrite _DATA_FORMAT df;
      CacheStore 0.004%float]).
Proof.
  intros Hid pc df.
  unfold ADXL343_new, __init__, bind, Struct.get_B, Bus.read_register.
  cbn [i2c_device]. rewrite Hid. reflexivity.
Qed.

Lemma init_fail (i2c_bus : Z -> Z) :
  i2c_bus _REG_WHOAMI <> 0xE5 ->
  ADXL343_new i2c_bus
  = (Raise (RuntimeError "Failed to find ADXL343"), mkADXL343 i2c_bus None,
     [BusRead _REG_WHOAMI 1]).
Proof.
  intros Hid. apply Z.eqb_neq in Hid.
  unfold ADXL343_new, __init__, bind, Struct.get_B, Bus.read_register.
  cbn [i2c_device]. rewrite Hid. reflexivity.
Qed.

(** ** Operations that leave the driver state alone *)

Lemma measurement_mode_final self : final (measurement_mode self) = self.
Proof.
  destruct (getter_run _measurement_mode ["STANDBY"; "READY"] self)
    as [name [_ E]]; try field_side; [reflexivity|].
  unfold measurement_mode. rewrite E. reflexivity.
Qed.

Lemma resolution_mode_final self : final (resolution_mode self) = self.
Proof.
  destruct (getter_run _resolution_mode ["LOW_RES"; "HIGH_RES"] self)
    as [name [_ E]]; try field_side; [reflexivity|].
  unfold resolution_mode. rewrite E. reflexivity.
Qed.

Lemma acceleration_range_final self : final (acceleration_range self) = self.
Proof.
  destruct (getter_run _acceleration_range
              ["RANGE_2"; "RANGE_4"; "RANGE_8"; "RANGE_16"] self)
    as [name [_ E]]; try field_side; [reflexivity|].
  unfold acceleration_range. rewrite E. reflexivity.
Qed.

Lemma acceleration_final self : final (acceleration self) = self.
Proof.
  unfold acceleration, bind, Struct.get_hhh, bind, Bus.read_block.
  cbn [map seq]. cbv beta iota. unfold ret at 1. cbv beta iota.
  unfold load_cached_resolution.
  destruct (_cached_resolution self) as [r|] eqn:Hc; cbv beta iota.
  - repeat (rewrite Hc; cbv beta iota). reflexivity.
  - reflexivity.
Qed.

(** ** Invariants of reachable states *)

Lemma stable_new i2c_bus :
  outcome (ADXL343_new i2c_bus) = Ok tt -> stable (final (ADXL343_new i2c_bus)).
Proof.
  intros Hok.
  destruct (Z.eq_dec (i2c_bus _REG_WHOAMI) 0xE5) as [Hid|Hid].
  - rewrite (init_run _ Hid). unfold final, stable, cache_consistent,
      committed_resolution_mode, committed_range. cbn [fst snd i2c_device _cached_resolution].
    rewrite !store_same, store_other by discriminate. rewrite store_same.
    split; [|split]; try (apply insert_byte; field_side).
    exists 0.004%float. split; [reflexivity|].
    rewrite extract_insert by field_side. reflexivity.
  - rewrite (init_fail _ Hid) in Hok. discriminate.
Qed.


(** An accepted resolution mode or range assignment ends with a consistent
    cache, whatever the cache was. *)
Lemma resolution_mode_setter_consistent self value z :
  int_value value = Some z -> In z resolution_modes ->
  cache_consistent (final (resolution_mode_setter value self)).
Proof.
  intros Hv Hz.
  destruct (resolution_mode_setter_run self _ _ Hv Hz) as [r [Ht E]].
  rewrite E. unfold final, cache_consistent, committed_resolution_mode,
    committed_range. cbn [fst snd i2c_device _cached_resolution].
  rewrite store_same. exists r. split; [reflexivity|].
  rewrite extract_insert
    by (try field_side; destruct Hz as [<-|[<-|[]]]; field_side).
  rewrite extract_insert_other
    by (try field_side; destruct Hz as [<-|[<-|[]]]; field_side).
  exact Ht.
Qed.

Lemma acceleration_range_setter_consistent self value z :
  int_value value = Some z -> In z ranges ->
  cache_consistent (final (acceleration_range_setter value self)).
Proof.
  intros Hv Hz.
  destruct (acceleration_range_setter_run self _ _ Hv Hz) as [r [Ht E]].
  rewrite E. unfold final, cache_consistent, committed_resolution_mode,
    committed_range. cbn [fst snd i2c_device _cached_resolution].
  rewrite store_same. exists r. split; [reflexivity|].
  rewrite extract_insert
    by (try field_side; destruct Hz as [<-|[<-|[<-|[<-|[]]]]]; field_side).
  rewrite extract_insert_other
    by (try field_side; destruct Hz as [<-|[<-|[<-|[<-|[]]]]]; field_side).
  exact Ht.
Qed.




Lemma stable_settled self : stable self -> settled self.
Proof.
  intros [[r [Hc Ht]] Hb]. split; [|exact Hb].
  exists r. split; [exact Hc|]. intros Hm. rewrite Hm in Ht.
  change (Some 0.004%float = Some r) in Ht. congruence.
Qed.

(** What every reachable state keeps, a float assigned to
    [acceleration_range] or not. *)
Lemma settled_perform c self : settled self -> settled (perform c self).
Proof.
  intros Hs. destruct c as [|v| |v| |v|]; cbn [perform].
  - now rewrite measurement_mode_final.
  - destruct (setter_cases v measurement_modes)
      as [[z [Hv Hz]]|[[f [-> Hf]]|Hn]].
    + rewrite (measurement_mode_setter_run _ _ _ Hv Hz).
      destruct Hs as [Hc [Hp Hd]].
      unfold final, settled, committed_resolution_mode in *.
      cbn [fst snd i2c_device _cached_resolution].
      rewrite store_same, !store_other by discriminate.
      split; [exact Hc|]. split; [apply insert_byte; field_side|assumption].
    + now rewrite (measurement_mode_setter_float _ _ Hf).
    + now rewrite (measurement_mode_setter_reject _ _ Hn).
  - now rewrite resolution_mode_final.
  - destruct (setter_cases v resolution_modes)
      as [[z [Hv Hz]]|[[f [-> Hf]]|Hn]].
    + apply stable_settled.
      split; [now apply (resolution_mode_setter_consistent self v z)|].
      destruct (resolution_mode_setter_run self _ _ Hv Hz) as [r [Ht E]].
      rewrite E. destruct Hs as [_ [Hp Hd]]. unfold final.
      cbn [fst snd i2c_device]. rewrite store_same, store_other by discriminate.
      split; [assumption|apply insert_byte; field_side].
    + now rewrite (resolution_mode_setter_float _ _ Hf).
    + now rewrite (resolution_mode_setter_reject _ _ Hn).
  - now rewrite acceleration_range_final.
  - destruct (setter_cases v ranges) as [[z [Hv Hz]]|[[f [-> Hf]]|Hn]].
    + apply stable_settled.
      split; [now apply (acceleration_range_setter_consistent self v z)|].
      destruct (acceleration_range_setter_run self _ _ Hv Hz) as [r [Ht E]].
      rewrite E. destruct Hs as [_ [Hp Hd]]. unfold final.
      cbn [fst snd i2c_device]. rewrite store_same, store_other by discriminate.
      split; [assumption|apply insert_byte; field_side].
    + destruct (acceleration_range_setter_float self f Hf)
        as [k [r [Hk [Hd [Ht E]]]]].
      rewrite E. destruct Hs as [_ Hb].
      unfold final, settled, committed_resolution_mode.
      cbn [fst snd i2c_device _cached_resolution].
      split; [|exact Hb]. exists r. split; [reflexivity|].
      intros Hm. rewrite Hm in Ht.
      change (Some 0.004%float = Some r) in Ht. congruence.
    + now rewrite (acceleration_range_setter_reject _ _ Hn).
  - now rewrite acceleration_final.
Qed.

Lemma reachable_settled self : reachable self -> settled self.
Proof.
  induction 1 as [i2c_bus Hok|c self Hr IH].
  - now apply stable_settled, stable_new.
  - now apply settled_perform.
Qed.

(** * The claims *)

Lemma committed_resolution_mode_legal self :
  In (committed_resolution_mode self) resolution_modes.
Proof.
  pose proof (extract_range _resolution_mode ltac:(field_side) ltac:(field_side)
                (i2c_device self _DATA_FORMAT)) as H.
  change (2 ^ RWBits.num_bits _resolution_mode) with 2 in H.
  unfold committed_resolution_mode, resolution_modes, LOW_RES, HIGH_RES.
  cbn [In]. lia.
Qed.

Lemma committed_range_legal self : In (committed_range self) ranges.
Proof.
  pose proof (extract_range _acceleration_range ltac:(field_side)
                ltac:(field_side) (i2c_device self _DATA_FORMAT)) as H.
  change (2 ^ RWBits.num_bits _acceleration_range) with 4 in H.
  unfold committed_range, ranges, RANGE_2, RANGE_4, RANGE_8, RANGE_16.
  cbn [In]. lia.
Qed.

Lemma committed_measurement_mode_legal self :
  In (committed_measurement_mode self) measurement_modes.
Proof.
  pose proof (extract_range _measurement_mode ltac:(field_side)
                ltac:(field_side) (i2c_device self _POWER_CTL)) as H.
  change (2 ^ RWBits.num_bits _measurement_mode) with 2 in H.
  unfold committed_measurement_mode, measurement_modes, STANDBY, READY.
  cbn [In]. lia.
Qed.

Lemma resolutions_differ : Some 0.031%float <> Some 0.004%float.
Proof.
  intros H.
  apply (f_equal (fun o => match o with
                           | Some f => PrimFloat.eqb f 0.004
                           | None => false
                           end)) in H.
  vm_compute in H. discriminate H.
Qed.

(** C1 (the code breaks it).  With the example driver in [LOW_RES] and
    [RANGE_2] (cache 0.004), [acceleration_range = 3.0] passes the
    membership test, reads the mode, stores 0.031 in the cache and then
    raises [TypeError] in the register write, which never happens.  After a
    further, successful [measurement_mode = READY] the state is reachable,
    the device holds [LOW_RES] with [RANGE_2], for which the table gives
    0.004, and the cache holds 0.031: the cache is not consistent. *)
Theorem float_range_leaves_stale_cache :
  _cached_resolution example_low_res_2_driver = Some 0.004%float /\
  acceleration_range_setter (PFloat 3) example_low_res_2_driver
  = (Raise TypeError,
     mkADXL343 (i2c_device example_low_res_2_driver) (Some 0.031%float),
     [BusRead _DATA_FORMAT 1; CacheStore 0.031%float]) /\
  outcome (measurement_mode_setter (PInt READY)
             (final (acceleration_range_setter (PFloat 3)
                       example_low_res_2_driver))) = Ok tt /\
  reachable example_stale_driver /\
  committed_resolution_mode example_stale_driver = LOW_RES /\
  committed_range example_stale_driver = RANGE_2 /\
  table LOW_RES RANGE_2 = Some 0.004%float /\
  _cached_resolution example_stale_driver = Some 0.031%float /\
  ~ cache_consistent example_stale_driver.
Proof.
  split; [reflexivity|]. split; [reflexivity|]. split; [reflexivity|].
  split; [do 4 apply reachable_call; apply reachable_new; reflexivity|].
  split; [reflexivity|]. split; [reflexivity|]. split; [reflexivity|].
  split; [reflexivity|].
  intros [r [Hc Ht]].
  change (Some 0.031%float = Some r) in Hc.
  change (Some 0.004%float = Some r) in Ht.
  apply resolutions_differ. congruence.
Qed.



(** C3.  For every accepted range value the range setter returns; the cache
    then holds the table's value for the new range when the committed
    resolution mode is [LOW_RES] (0.004, 0.008, 0.016, 0.031) and 0.004 when
    it is [HIGH_RES]; the register holds the new range; and the cache store
    comes before the bus write of the range bits. *)
Theorem acceleration_range_setter_cache (self : ADXL343) (value : pyval) (z : Z) :
  int_value value = Some z -> In z ranges ->
  let x := acceleration_range_setter value self in
  outcome x = Ok tt /\
  (committed_resolution_mode self = LOW_RES ->
   _cached_resolution (final x) = table LOW_RES z /\
   (z = RANGE_2 -> _cached_resolution (final x) = Some 0.004%float) /\
   (z = RANGE_4 -> _cached_resolution (final x) = Some 0.008%float) /\
   (z = RANGE_8 -> _cached_resolution (final x) = Some 0.016%float) /\
   (z = RANGE_16 -> _cached_resolution (final x) = Some 0.031%float)) /\
  (committed_resolution_mode self = HIGH_RES ->
   _cached_resolution (final x) = Some 0.004%float) /\
  committed_range (final x) = z /\
  committed_resolution_mode (final x) = committed_resolution_mode self /\
  (exists b r,
      trace x = [BusRead _DATA_FORMAT 1; CacheStore r;
                 BusRead _DATA_FORMAT 1; BusWrite _DATA_FORMAT b]) /\
  writes_after_store (trace x) = true.
Proof.
  intros Hv Hz x. subst x.
  destruct (acceleration_range_setter_run self _ _ Hv Hz) as [r [Ht E]].
  rewrite E. unfold outcome, final, trace, committed_resolution_mode,
    committed_range in *. cbn [fst snd i2c_device _cached_resolution].
  rewrite store_same.
  assert (Hz4 : 0 <= z < 2 ^ RWBits.num_bits _acceleration_range).
  { destruct Hz as [<-|[<-|[<-|[<-|[]]]]]; field_side. }
  split; [reflexivity|]. split; [|split; [|split; [|split; [|split]]]].
  - intros Hm. rewrite Hm in Ht. rewrite <- Ht.
    split; [reflexivity|]. repeat split; intros ->; reflexivity.
  - intros Hm. rewrite Hm in Ht. rewrite <- Ht. reflexivity.
  - apply extract_insert; field_side.
  - apply extract_insert_other; field_side.
  - eexists; exists r. reflexivity.
  - reflexivity.
Qed.

Lemma acceleration_range_setter_cache_witness :
  int_value (PInt RANGE_4) = Some RANGE_4 /\ In RANGE_4 ranges /\
  committed_resolution_mode example_low_res_driver = LOW_RES /\
  _cached_resolution
    (final (acceleration_range_setter (PInt RANGE_4) example_low_res_driver))
  = Some 0.008%float.
Proof.
  assert (Hz : In RANGE_4 ranges) by (right; left; reflexivity).
  split; [reflexivity|]. split; [exact Hz|]. split; [reflexivity|].
  apply (acceleration_range_setter_cache example_low_res_driver
           (PInt RANGE_4) RANGE_4 eq_refl Hz); reflexivity.
Defined.

(** C4.  For every accepted resolution mode the setter returns and leaves
    the range as it was.  Setting [LOW_RES] makes the cache the table's value
    for the current range, so 0.016 when the range is [RANGE_8], whatever the
    mode was before; setting [HIGH_RES] makes it 0.004 whatever the range. *)
Theorem resolution_mode_setter_cache (self : ADXL343) (value : pyval) (z : Z) :
  int_value value = Some z -> In z resolution_modes ->
  let x := resolution_mode_setter value self in
  outcome x = Ok tt /\
  committed_range (final x) = committed_range self /\
  committed_resolution_mode (final x) = z /\
  (z = LOW_RES ->
   (exists r, _cached_resolution (final x) = Some r) /\
   _cached_resolution (final x) = table LOW_RES (committed_range self)) /\
  (z = LOW_RES -> committed_range self = RANGE_8 ->
   _cached_resolution (final x) = Some 0.016%float) /\
  (z = HIGH_RES -> _cached_resolution (final x) = Some 0.004%float).
Proof.
  intros Hv Hz x. subst x.
  destruct (resolution_mode_setter_run self _ _ Hv Hz) as [r [Ht E]].
  rewrite E. unfold outcome, final, trace, committed_resolution_mode,
    committed_range in *. cbn [fst snd i2c_device _cached_resolution].
  rewrite store_same.
  assert (Hz2 : 0 <= z < 2 ^ RWBits.num_bits _resolution_mode).
  { destruct Hz as [<-|[<-|[]]]; field_side. }
  split; [reflexivity|]. split; [|split; [|split; [|split]]].
  - apply extract_insert_other; field_side.
  - apply extract_insert; field_side.
  - intros ->. split; [eauto|]. now rewrite Ht.
  - intros -> Hr. rewrite Hr in Ht. rewrite <- Ht. reflexivity.
  - intros ->. rewrite <- Ht. reflexivity.
Qed.

Lemma resolution_mode_setter_cache_witness :
  int_value (PInt LOW_RES) = Some LOW_RES /\ In LOW_RES resolution_modes /\
  committed_resolution_mode example_driver = HIGH_RES /\
  committed_range example_driver = RANGE_8 /\
  _cached_resolution example_driver = Some 0.004%float /\
  _cached_resolution (final (resolution_mode_setter (PInt LOW_RES) example_driver))
  = Some 0.016%float.
Proof.
  assert (Hz : In LOW_RES resolution_modes) by (left; reflexivity).
  split; [reflexivity|]. split; [exact Hz|].
  split; [reflexivity|]. split; [reflexivity|]. split; [reflexivity|].
  apply (resolution_mode_setter_cache example_driver
           (PInt LOW_RES) LOW_RES eq_refl Hz); reflexivity.
Defined.

(** C5.  When the identity register reads 0xE5 the constructor returns, and
    what it does is, in this order: the identity read, the read-modify-write
    of POWER_CTL that sets the measurement bit ([READY]), the
    read-modify-write of DATA_FORMAT that sets the resolution bit
    ([HIGH_RES]), and the store of 0.004 in the resolution cache.  These are
    its only bus writes; no other register and no other bit of the two
    registers' bytes changes. *)
Theorem init_sequence (i2c_bus : Z -> Z) :
  i2c_bus _REG_WHOAMI = 0xE5 ->
  let x := ADXL343_new i2c_bus in
  let pc := RWBits.insert _measurement_mode READY (i2c_bus _POWER_CTL) in
  let df := RWBits.insert _resolution_mode HIGH_RES (i2c_bus _DATA_FORMAT) in
  outcome x = Ok tt /\
  instance i2c_bus = Some (final x) /\
  trace x = [BusRead _REG_WHOAMI 1;
             BusRead _POWER_CTL 1; BusWrite _POWER_CTL pc;
             BusRead _DATA_FORMAT 1; BusWrite _DATA_FORMAT df;
             CacheStore 0.004%float] /\
  writes (trace x) = [BusWrite _POWER_CTL pc; BusWrite _DATA_FORMAT df] /\
  committed_measurement_mode (final x) = READY /\
  committed_resolution_mode (final x) = HIGH_RES /\
  _cached_resolution (final x) = Some 0.004%float /\
  (forall a, a <> _POWER_CTL -> a <> _DATA_FORMAT ->
             i2c_device (final x) a = i2c_bus a) /\
  (forall a i, a = _POWER_CTL \/ a = _DATA_FORMAT -> 0 <= i < 8 -> i <> 3 ->
               Z.testbit (i2c_device (final x) a) i = Z.testbit (i2c_bus a) i).
Proof.
  intros Hid x pc df. subst x. unfold instance.
  rewrite (init_run _ Hid). fold pc df.
  unfold outcome, final, trace, committed_measurement_mode,
    committed_resolution_mode. cbn [fst snd i2c_device _cached_resolution].
  split; [reflexivity|]. split; [reflexivity|]. split; [reflexivity|].
  split; [reflexivity|].
  rewrite store_same, store_other, store_same by discriminate.
  split; [apply extract_insert; field_side|].
  split; [apply extract_insert; field_side|].
  split; [reflexivity|]. split.
  - intros a Ha Hb. now rewrite !store_other.
  - intros a i [->| ->] Hi Hi3.
    + rewrite store_other, store_same by discriminate.
      apply insert_other_bits; try field_side.
      rewrite testbit_bit_mask by field_side.
      destruct (Z.leb_spec (RWBits.lowest_bit _measurement_mode) i),
        (Z.ltb_spec i (RWBits.lowest_bit _measurement_mode
                       + RWBits.num_bits _measurement_mode));
        try reflexivity; field_side.
    + rewrite store_same.
      apply insert_other_bits; try field_side.
      rewrite testbit_bit_mask by field_side.
      destruct (Z.leb_spec (RWBits.lowest_bit _resolution_mode) i),
        (Z.ltb_spec i (RWBits.lowest_bit _resolution_mode
                       + RWBits.num_bits _resolution_mode));
        try reflexivity; field_side.
Qed.

Lemma init_sequence_witness :
  example_bus _REG_WHOAMI = 0xE5 /\
  trace (ADXL343_new example_bus)
  = [BusRead 0x00 1; BusRead 0x2D 1; BusWrite 0x2D 0x08;
     BusRead 0x31 1; BusWrite 0x31 0x0A; CacheStore 0.004%float] /\
  _cached_resolution (final (ADXL343_new example_bus)) = Some 0.004%float.
Proof.
  split; [reflexivity|].
  pose proof (init_sequence example_bus eq_refl) as H.
  split; [apply H|apply H].
Defined.

(** C6.  The constructor raises the device-not-found [RuntimeError] exactly
    when the identity register does not read 0xE5 (otherwise it returns).
    When it raises there is no instance, the identity read is the only bus
    transaction, so nothing is written, and the registers are as they
    were. *)
Theorem init_identity_check (i2c_bus : Z -> Z) :
  let x := ADXL343_new i2c_bus in
  (i2c_bus _REG_WHOAMI <> 0xE5 <->
   outcome x = Raise (RuntimeError "Failed to find ADXL343")) /\
  (i2c_bus _REG_WHOAMI = 0xE5 <-> outcome x = Ok tt) /\
  (i2c_bus _REG_WHOAMI <> 0xE5 ->
   instance i2c_bus = None /\
   trace x = [BusRead _REG_WHOAMI 1] /\
   writes (trace x) = [] /\
   i2c_device (final x) = i2c_bus /\
   _cached_resolution (final x) = None).
Proof.
  intros x. subst x. unfold instance.
  destruct (Z.eq_dec (i2c_bus _REG_WHOAMI) 0xE5) as [Hid|Hid].
  - rewrite (init_run _ Hid). unfold outcome. cbn [fst].
    split; [|split].
    + split; [contradiction|discriminate].
    + split; reflexivity || (intros _; exact Hid).
    + contradiction.
  - rewrite (init_fail _ Hid). unfold outcome, final, trace.
    cbn [fst snd i2c_device _cached_resolution].
    split; [|split].
    + split; reflexivity || (intros _; exact Hid).
    + split; [contradiction|discriminate].
    + intros _. repeat split.
Qed.

Lemma init_identity_check_witness :
  absent_bus _REG_WHOAMI <> 0xE5 /\
  ADXL343_new absent_bus
  = (Raise (RuntimeError "Failed to find ADXL343"), mkADXL343 absent_bus None,
     [BusRead 0x00 1]) /\
  instance absent_bus = None.
Proof.
  assert (Hid : absent_bus _REG_WHOAMI <> 0xE5) by discriminate.
  split; [exact Hid|]. split; [reflexivity|].
  apply (init_identity_check absent_bus). exact Hid.
Defined.

(** C7.  Each setter raises its [ValueError] exactly when the value is
    outside the setting's domain, that is, is not a number equal to one of
    the setting's constants; it then has performed no bus transaction and no
    cache store, and the driver state, registers and cache, is what it was.
    A value of the domain never raises [ValueError]: an [int] or [bool] is
    accepted and the setter returns; a [float] equal to a constant passes
    the check and raises [TypeError] in the register write. *)
Theorem setters_domain_check (self : ADXL343) (value : pyval) :
  ((~ in_domain value measurement_modes <->
    exists msg, outcome (measurement_mode_setter value self)
                = Raise (ValueError msg)) /\
   (~ in_domain value measurement_modes ->
    measurement_mode_setter value self
    = (Raise (ValueError "Value must be a valid measurement_mode setting"),
       self, [])) /\
   (forall z, int_value value = Some z -> In z measurement_modes ->
              outcome (measurement_mode_setter value self) = Ok tt) /\
   (forall f, value = PFloat f -> in_domain value measurement_modes ->
              outcome (measurement_mode_setter value self) = Raise TypeError)) /\
  ((~ in_domain value resolution_modes <->
    exists msg, outcome (resolution_mode_setter value self)
                = Raise (ValueError msg)) /\
   (~ in_domain value resolution_modes ->
    resolution_mode_setter value self
    = (Raise (ValueError "Value must be a valid resolution_mode setting"),
       self, [])) /\
   (forall z, int_value value = Some z -> In z resolution_modes ->
              outcome (resolution_mode_setter value self) = Ok tt) /\
   (forall f, value = PFloat f -> in_domain value resolution_modes ->
              outcome (resolution_mode_setter value self) = Raise TypeError)) /\
  ((~ in_domain value ranges <->
    exists msg, outcome (acceleration_range_setter value self)
                = Raise (ValueError msg)) /\
   (~ in_domain value ranges ->
    acceleration_range_setter value self
    = (Raise (ValueError "Value must be a valid acceleration_range setting"),
       self, [])) /\
   (forall z, int_value value = Some z -> In z ranges ->
              outcome (acceleration_range_setter value self) = Ok tt) /\
   (forall f, value = PFloat f -> in_domain value ranges ->
              outcome (acceleration_range_setter value self) = Raise TypeError)).
Proof.
  split; [|split].
  - split; [|split; [|split]].
    + destruct (setter_cases value measurement_modes)
        as [[z [Hv Hz]]|[[f [-> Hf]]|Hn]].
      * rewrite (measurement_mode_setter_run _ _ _ Hv Hz).
        pose proof (int_in_domain _ _ _ Hv Hz) as Hd.
        split; [contradiction|]. intros [msg H]. discriminate H.
      * rewrite (measurement_mode_setter_float _ _ Hf).
        apply py_in_domain in Hf.
        split; [contradiction|]. intros [msg H]. discriminate H.
      * rewrite (measurement_mode_setter_reject _ _ Hn).
        split; [intros _; eexists; reflexivity|intros _; exact Hn].
    + apply measurement_mode_setter_reject.
    + intros z Hv Hz. now rewrite (measurement_mode_setter_run _ _ _ Hv Hz).
    + intros f -> Hd. apply py_in_domain in Hd.
      now rewrite (measurement_mode_setter_float _ _ Hd).
  - split; [|split; [|split]].
    + destruct (setter_cases value resolution_modes)
        as [[z [Hv Hz]]|[[f [-> Hf]]|Hn]].
      * destruct (resolution_mode_setter_run self _ _ Hv Hz) as [r [_ E]].
        rewrite E. pose proof (int_in_domain _ _ _ Hv Hz) as Hd.
        split; [contradiction|]. intros [msg H]. discriminate H.
      * rewrite (resolution_mode_setter_float _ _ Hf).
        apply py_in_domain in Hf.
        split; [contradiction|]. intros [msg H]. discriminate H.
      * rewrite (resolution_mode_setter_reject _ _ Hn).
        split; [intros _; eexists; reflexivity|intros _; exact Hn].
    + apply resolution_mode_setter_reject.
    + intros z Hv Hz.
      destruct (resolution_mode_setter_run self _ _ Hv Hz) as [r [_ E]].
      now rewrite E.
    + intros f -> Hd. apply py_in_domain in Hd.
      now rewrite (resolution_mode_setter_float _ _ Hd).
  - split; [|split; [|split]].
    + destruct (setter_cases value ranges)
        as [[z [Hv Hz]]|[[f [-> Hf]]|Hn]].
      * destruct (acceleration_range_setter_run self _ _ Hv Hz) as [r [_ E]].
        rewrite E. pose proof (int_in_domain _ _ _ Hv Hz) as Hd.
        split; [contradiction|]. intros [msg H]. discriminate H.
      * destruct (acceleration_range_setter_float self f Hf)
          as [k [r [_ [_ [_ E]]]]].
        rewrite E. apply py_in_domain in Hf.
        split; [contradiction|]. intros [msg H]. discriminate H.
      * rewrite (acceleration_range_setter_reject _ _ Hn).
        split; [intros _; eexists; reflexivity|intros _; exact Hn].
    + apply acceleration_range_setter_reject.
    + intros z Hv Hz.
      destruct (acceleration_range_setter_run self _ _ Hv Hz) as [r [_ E]].
      now rewrite E.
    + intros f -> Hd. apply py_in_domain in Hd.
      destruct (acceleration_range_setter_float self f Hd)
        as [k [r [_ [_ [_ E]]]]].
      now rewrite E.
Qed.

Lemma setters_domain_check_witness :
  ~ in_domain (PInt 4) ranges /\
  ~ in_domain (PStr "RANGE_8") ranges /\
  ~ in_domain (PFloat 2.5) ranges /\
  in_domain (PFloat 3) ranges /\
  acceleration_range_setter (PInt 4) example_low_res_driver
  = (Raise (ValueError "Value must be a valid acceleration_range setting"),
     example_low_res_driver, []) /\
  acceleration_range_setter (PStr "RANGE_8") example_low_res_driver
  = (Raise (ValueError "Value must be a valid acceleration_range setting"),
     example_low_res_driver, []) /\
  acceleration_range_setter (PFloat 2.5) example_low_res_driver
  = (Raise (ValueError "Value must be a valid acceleration_range setting"),
     example_low_res_driver, []) /\
  outcome (acceleration_range_setter (PFloat 3) example_low_res_driver)
  = Raise TypeError.
Proof.
  assert (H4 : ~ in_domain (PInt 4) ranges)
    by (apply py_in_not_domain; reflexivity).
  assert (Hs : ~ in_domain (PStr "RANGE_8") ranges)
    by (apply py_in_not_domain; reflexivity).
  assert (Hf : ~ in_domain (PFloat 2.5) ranges)
    by (apply py_in_not_domain; reflexivity).
  assert (H3 : in_domain (PFloat 3) ranges)
    by (apply py_in_domain; reflexivity).
  split; [exact H4|]. split; [exact Hs|]. split; [exact Hf|].
  split; [exact H3|]. split; [|split; [|split]].
  - apply (setters_domain_check example_low_res_driver (PInt 4)). exact H4.
  - apply (setters_domain_check example_low_res_driver (PStr "RANGE_8")).
    exact Hs.
  - apply (setters_domain_check example_low_res_driver (PFloat 2.5)).
    exact Hf.
  - apply (proj2 (proj2 (proj2 (proj2 (proj2
             (setters_domain_check example_low_res_driver (PFloat 3))))))
             3%float eq_refl H3).
Defined.

(** C8.  For every driver state with a resolution cache [r] and every sample
    [(x, y, z)] of signed 16-bit counts held by the data registers,
    [acceleration] returns [(x * 9.80665 * r, y * 9.80665 * r,
    z * 9.80665 * r)] in floating point, evaluated left to right.  Its only
    bus transaction is the one six-byte read at the data registers (no read
    of the mode or range register), and it leaves the driver state as it
    was. *)
Theorem acceleration_conversion (self : ADXL343) (r : float) (x y z : Z) :
  _cached_resolution self = Some r ->
  int16 x -> int16 y -> int16 z ->
  holds_sample (i2c_device self) x y z ->
  acceleration self
  = (Ok ((float_of_int x * 9.80665 * r)%float,
         (float_of_int y * 9.80665 * r)%float,
         (float_of_int z * 9.80665 * r)%float),
     self, [BusRead _ACC 6]).
Proof.
  intros Hc Hx Hy Hz [Sx [Sy Sz]].
  apply unpack_pack_h in Hx, Hy, Hz.
  rewrite <- Sx in Hx. rewrite <- Sy in Hy. rewrite <- Sz in Hz.
  cbn [fst snd] in Hx, Hy, Hz.
  unfold acceleration, bind, Struct.get_hhh, bind, Bus.read_block.
  cbn [map seq]. cbv beta iota. unfold ret at 1. cbv beta iota.
  change (_ACC + Z.of_nat 0) with _ACC.
  change (Z.of_nat 1) with 1. change (Z.of_nat 2) with 2.
  change (Z.of_nat 3) with 3. change (Z.of_nat 4) with 4.
  change (Z.of_nat 5) with 5.
  rewrite Hx, Hy, Hz.
  unfold load_cached_resolution. repeat (rewrite Hc; cbv beta iota).
  reflexivity.
Qed.

Lemma acceleration_conversion_witness :
  _cached_resolution example_driver = Some 0.004%float /\
  int16 1000 /\ int16 (-500) /\ int16 0 /\
  holds_sample (i2c_device example_driver) 1000 (-500) 0 /\
  acceleration example_driver
  = (Ok (39.2266%float, (-19.6133)%float, 0%float), example_driver,
     [BusRead 0x32 6]).
Proof.
  assert (Hs : holds_sample (i2c_device example_driver) 1000 (-500) 0)
    by (repeat split; reflexivity).
  assert (H1 : int16 1000) by (unfold int16; lia).
  assert (H2 : int16 (-500)) by (unfold int16; lia).
  assert (H3 : int16 0) by (unfold int16; lia).
  split; [reflexivity|]. repeat (split; [assumption|]).
  rewrite (acceleration_conversion example_driver 0.004%float 1000 (-500) 0
             eq_refl H1 H2 H3 Hs).
  reflexivity.
Defined.

Lemma store_id d a r : Bus.store d a (d a) r = d r.
Proof.
  unfold Bus.store. destruct (Z.eqb_spec r a) as [->|_]; reflexivity.
Qed.

(** In a state with a consistent cache and byte registers, setting a
    setting to the value the device holds for it changes neither the cache
    nor any register. *)
Lemma setters_idempotent_stable (self : ADXL343) :
  stable self ->
  (outcome (measurement_mode_setter (PInt (committed_measurement_mode self)) self)
   = Ok tt /\
   same_state
     (perform (Set_measurement_mode (PInt (committed_measurement_mode self))) self)
     self) /\
  (outcome (resolution_mode_setter (PInt (committed_resolution_mode self)) self)
   = Ok tt /\
   same_state
     (perform (Set_resolution_mode (PInt (committed_resolution_mode self))) self)
     self) /\
  (outcome (acceleration_range_setter (PInt (committed_range self)) self)
   = Ok tt /\
   same_state
     (perform (Set_acceleration_range (PInt (committed_range self))) self)
     self).
Proof.
  intros Hr.
  destruct Hr as [[r [Hc Ht]] [Hp Hd]]. cbn [perform].
  split; [|split].
  - rewrite (measurement_mode_setter_run self (PInt _) _ eq_refl
               (committed_measurement_mode_legal self)).
    unfold outcome, final, same_state, committed_measurement_mode.
    cbn [fst snd i2c_device _cached_resolution].
    rewrite insert_extract by (field_side || assumption).
    split; [reflexivity|]. split; [reflexivity|]. intros a. apply store_id.
  - destruct (resolution_mode_setter_run self (PInt _) _ eq_refl
                (committed_resolution_mode_legal self)) as [r' [Ht' E]].
    rewrite E. unfold outcome, final, same_state, committed_resolution_mode,
      committed_range in *.
    cbn [fst snd i2c_device _cached_resolution].
    rewrite insert_extract by (field_side || assumption).
    split; [reflexivity|]. split; [congruence|]. intros a. apply store_id.
  - destruct (acceleration_range_setter_run self (PInt _) _ eq_refl
                (committed_range_legal self)) as [r' [Ht' E]].
    rewrite E. unfold outcome, final, same_state, committed_resolution_mode,
      committed_range in *.
    cbn [fst snd i2c_device _cached_resolution].
    rewrite insert_extract by (field_side || assumption).
    split; [reflexivity|]. split; [congruence|]. intros a. apply store_id.
Qed.

(** C9 (the code breaks it).  The stale state that
    [acceleration_range = 3.0] leaves behind is reachable; the device holds
    [RANGE_2] there and the cache 0.031.  Setting the range to [RANGE_2],
    the value the device holds, is accepted and stores 0.004: the cache
    after the call is not the cache before it. *)
Theorem stale_cache_breaks_idempotence :
  reachable example_stale_driver /\
  committed_range example_stale_driver = RANGE_2 /\
  outcome (acceleration_range_setter
             (PInt (committed_range example_stale_driver)) example_stale_driver)
  = Ok tt /\
  _cached_resolution example_stale_driver = Some 0.031%float /\
  _cached_resolution
    (perform (Set_acceleration_range
                (PInt (committed_range example_stale_driver)))
       example_stale_driver)
  = Some 0.004%float /\
  ~ same_state
      (perform (Set_acceleration_range
                  (PInt (committed_range example_stale_driver)))
         example_stale_driver)
      example_stale_driver.
Proof.
  split; [do 4 apply reachable_call; apply reachable_new; reflexivity|].
  split; [reflexivity|]. split; [reflexivity|]. split; [reflexivity|].
  split; [reflexivity|].
  intros [Hc _].
  change (Some 0.004%float = Some 0.031%float) in Hc.
  apply resolutions_differ. congruence.
Qed.

(** C10.  In every driver state each of the three getters returns a string,
    the name of the value the device holds, and each setter raises its
    [ValueError] for every string; so handing a getter's result to the setter
    of the same property raises, after the getter's one register read and
    with the driver state as it was. *)
Theorem get_then_set_raises (self : ADXL343) :
  ((exists name,
       measurement_mode self = (Ok name, self, [BusRead _POWER_CTL 1]) /\
       nth_error ["STANDBY"; "READY"]
         (Z.to_nat (committed_measurement_mode self)) = Some name) /\
   (forall s, measurement_mode_setter (PStr s) self
              = (Raise (ValueError "Value must be a valid measurement_mode setting"),
                 self, [])) /\
   get_then_set measurement_mode measurement_mode_setter self
   = (Raise (ValueError "Value must be a valid measurement_mode setting"),
      self, [BusRead _POWER_CTL 1])) /\
  ((exists name,
       resolution_mode self = (Ok name, self, [BusRead _DATA_FORMAT 1]) /\
       nth_error ["LOW_RES"; "HIGH_RES"]
         (Z.to_nat (committed_resolution_mode self)) = Some name) /\
   (forall s, resolution_mode_setter (PStr s) self
              = (Raise (ValueError "Value must be a valid resolution_mode setting"),
                 self, [])) /\
   get_then_set resolution_mode resolution_mode_setter self
   = (Raise (ValueError "Value must be a valid resolution_mode setting"),
      self, [BusRead _DATA_FORMAT 1])) /\
  ((exists name,
       acceleration_range self = (Ok name, self, [BusRead _DATA_FORMAT 1]) /\
       nth_error ["RANGE_2"; "RANGE_4"; "RANGE_8"; "RANGE_16"]
         (Z.to_nat (committed_range self)) = Some name) /\
   (forall s, acceleration_range_setter (PStr s) self
              = (Raise (ValueError "Value must be a valid acceleration_range setting"),
                 self, [])) /\
   get_then_set acceleration_range acceleration_range_setter self
   = (Raise (ValueError "Value must be a valid acceleration_range setting"),
      self, [BusRead _DATA_FORMAT 1])).
Proof.
  assert (Hstr : forall s D, ~ in_domain (PStr s) D).
  { intros s D [z [_ []]]. }
  split; [|split].
  - destruct (getter_run _measurement_mode ["STANDBY"; "READY"] self)
      as [name [Hn E]]; try field_side; [reflexivity|].
    split; [exists name; split; [exact E|exact Hn]|].
    split; [intros s; apply measurement_mode_setter_reject, Hstr|].
    unfold get_then_set, bind. fold measurement_mode in E |- *. rewrite E.
    cbv beta iota.
    rewrite (measurement_mode_setter_reject _ _ (Hstr name _)). reflexivity.
  - destruct (getter_run _resolution_mode ["LOW_RES"; "HIGH_RES"] self)
      as [name [Hn E]]; try field_side; [reflexivity|].
    split; [exists name; split; [exact E|exact Hn]|].
    split; [intros s; apply resolution_mode_setter_reject, Hstr|].
    unfold get_then_set, bind. fold resolution_mode in E |- *. rewrite E.
    cbv beta iota.
    rewrite (resolution_mode_setter_reject _ _ (Hstr name _)). reflexivity.
  - destruct (getter_run _acceleration_range
                ["RANGE_2"; "RANGE_4"; "RANGE_8"; "RANGE_16"] self)
      as [name [Hn E]]; try field_side; [reflexivity|].
    split; [exists name; split; [exact E|exact Hn]|].
    split; [intros s; apply acceleration_range_setter_reject, Hstr|].
    unfold get_then_set, bind. fold acceleration_range in E |- *. rewrite E.
    cbv beta iota.
    rewrite (acceleration_range_setter_reject _ _ (Hstr name _)). reflexivity.
Qed.

(** * Further properties of the driver *)

(** ** More on bit fields *)

Section FieldWrites.
Import RWBits.
Variable f : RWBits.t.
Hypothesis Hlow : 0 <= lowest_bit f.
Hypothesis Hnum : 0 <= num_bits f.

(** A set bit of a value that fits the field lands inside the mask. *)
Lemma value_bit_in_mask v i :
  0 <= v < 2 ^ num_bits f -> 0 <= i ->
  Z.testbit v (i - lowest_bit f) = true -> Z.testbit (bit_mask f) i = true.
Proof.
  intros Hv Hi Hb. rewrite (testbit_bit_mask f Hnum) by lia.
  destruct (Z.leb_spec (lowest_bit f) i).
  - destruct (Z.ltb_spec i (lowest_bit f + num_bits f)); [reflexivity|].
    rewrite (small_testbit v (num_bits f)) in Hb by lia. discriminate.
  - rewrite Z.testbit_neg_r in Hb by lia. discriminate.
Qed.

(** A second write to a field replaces the first. *)
Lemma insert_insert v w reg :
  0 <= v < 2 ^ num_bits f -> insert f w (insert f v reg) = insert f w reg.
Proof.
  intros Hv. apply Z.bits_inj'; intros i Hi.
  rewrite !testbit_insert by lia.
  pose proof (value_bit_in_mask v i Hv Hi) as Hm.
  destruct (i <? 8), (Z.testbit reg i), (Z.testbit (bit_mask f) i),
    (Z.testbit v (i - lowest_bit f)), (Z.testbit w (i - lowest_bit f));
    try reflexivity; specialize (Hm eq_refl); discriminate.
Qed.

(** Writes to two fields that share no bit can be done in either order. *)
Lemma insert_commute (g : RWBits.t) v w reg :
  0 <= lowest_bit g -> 0 <= num_bits g ->
  lowest_bit g + num_bits g <= lowest_bit f
    \/ lowest_bit f + num_bits f <= lowest_bit g ->
  0 <= v < 2 ^ num_bits f -> 0 <= w < 2 ^ num_bits g ->
  insert f v (insert g w reg) = insert g w (insert f v reg).
Proof.
  intros Hgl Hgn Hdis Hv Hw. apply Z.bits_inj'; intros i Hi.
  rewrite !testbit_insert by lia.
  assert (Hv' : Z.testbit v (i - lowest_bit f) = true ->
                Z.testbit (bit_mask f) i = true
                /\ Z.testbit (bit_mask g) i = false).
  { intros Hb. split; [now apply (value_bit_in_mask v)|].
    rewrite (testbit_bit_mask g Hgn) by lia.
    destruct (Z.leb_spec (lowest_bit f) i);
      [|rewrite Z.testbit_neg_r in Hb by lia; discriminate].
    destruct (Z.ltb_spec (i - lowest_bit f) (num_bits f));
      [|rewrite (small_testbit v (num_bits f)) in Hb by lia; discriminate].
    destruct (Z.leb_spec (lowest_bit g) i),
      (Z.ltb_spec i (lowest_bit g + num_bits g)); try reflexivity; lia. }
  assert (Hw' : Z.testbit w (i - lowest_bit g) = true ->
                Z.testbit (bit_mask g) i = true
                /\ Z.testbit (bit_mask f) i = false).
  { intros Hb. split.
    - rewrite (testbit_bit_mask g Hgn) by lia.
      destruct (Z.leb_spec (lowest_bit g) i);
        [|rewrite Z.testbit_neg_r in Hb by lia; discriminate].
      destruct (Z.ltb_spec i (lowest_bit g + num_bits g)); [reflexivity|].
      rewrite (small_testbit w (num_bits g)) in Hb by lia. discriminate.
    - rewrite (testbit_bit_mask f Hnum) by lia.
      destruct (Z.leb_spec (lowest_bit g) i);
        [|rewrite Z.testbit_neg_r in Hb by lia; discriminate].
      destruct (Z.ltb_spec (i - lowest_bit g) (num_bits g));
        [|rewrite (small_testbit w (num_bits g)) in Hb by lia; discriminate].
      destruct (Z.leb_spec (lowest_bit f) i),
        (Z.ltb_spec i (lowest_bit f + num_bits f)); try reflexivity; lia. }
  destruct (i <? 8), (Z.testbit reg i), (Z.testbit (bit_mask f) i),
    (Z.testbit (bit_mask g) i), (Z.testbit v (i - lowest_bit f)),
    (Z.testbit w (i - lowest_bit g)); try reflexivity;
    try (destruct (Hv' eq_refl); discriminate);
    try (destruct (Hw' eq_refl); discriminate).
Qed.

End FieldWrites.

Lemma store_store d a v w r : Bus.store (Bus.store d a v) a w r = Bus.store d a w r.
Proof. unfold Bus.store. destruct (r =? a); reflexivity. Qed.

Lemma store_swap d a b v w r :
  a <> b ->
  Bus.store (Bus.store d a v) b w r = Bus.store (Bus.store d b w) a v r.
Proof.
  intros Hab. unfold Bus.store.
  destruct (Z.eqb_spec r a), (Z.eqb_spec r b); try reflexivity. congruence.
Qed.

(** ** The methods as equations *)

Lemma acceleration_eq self :
  acceleration self
  = match _cached_resolution self with
    | Some r =>
        let '(x, y, z) := raw_sample (i2c_device self) in
        (Ok (scaled x r, scaled y r, scaled z r), self, [BusRead _ACC 6])
    | None => (Raise AttributeError, self, [BusRead _ACC 6])
    end.
Proof.
  unfold acceleration, Struct.get_hhh, bind, Bus.read_block, ret,
    load_cached_resolution, raw_sample, scaled.
  cbn [map seq]. cbv beta iota.
  destruct (_cached_resolution self) as [r|] eqn:Hc; cbv beta iota;
    [repeat (rewrite Hc; cbv beta iota)|]; reflexivity.
Qed.

Lemma measurement_mode_setter_final self value z :
  int_value value = Some z -> In z measurement_modes ->
  final (measurement_mode_setter value self)
  = mkADXL343
      (Bus.store (i2c_device self) _POWER_CTL
         (RWBits.insert _measurement_mode z (i2c_device self _POWER_CTL)))
      (_cached_resolution self).
Proof.
  intros Hv Hz. now rewrite (measurement_mode_setter_run self _ _ Hv Hz).
Qed.

Lemma resolution_mode_setter_final self value z :
  int_value value = Some z -> In z resolution_modes ->
  exists r,
    table z (committed_range self) = Some r /\
    final (resolution_mode_setter value self)
    = mkADXL343
        (Bus.store (i2c_device self) _DATA_FORMAT
           (RWBits.insert _resolution_mode z (i2c_device self _DATA_FORMAT)))
        (Some r).
Proof.
  intros Hv Hz.
  destruct (resolution_mode_setter_run self _ _ Hv Hz) as [r [Ht E]].
  exists r. split; [exact Ht|]. now rewrite E.
Qed.

Lemma acceleration_range_setter_final self value z :
  int_value value = Some z -> In z ranges ->
  exists r,
    table (committed_resolution_mode self) z = Some r /\
    final (acceleration_range_setter value self)
    = mkADXL343
        (Bus.store (i2c_device self) _DATA_FORMAT
           (RWBits.insert _acceleration_range z (i2c_device self _DATA_FORMAT)))
        (Some r).
Proof.
  intros Hv Hz.
  destruct (acceleration_range_setter_run self _ _ Hv Hz) as [r [Ht E]].
  exists r. split; [exact Ht|]. now rewrite E.
Qed.

Lemma measurement_modes_fit z :
  In z measurement_modes -> 0 <= z < 2 ^ RWBits.num_bits _measurement_mode.
Proof. intros [<-|[<-|[]]]; field_side. Qed.

Lemma resolution_modes_fit z :
  In z resolution_modes -> 0 <= z < 2 ^ RWBits.num_bits _resolution_mode.
Proof. intros [<-|[<-|[]]]; field_side. Qed.

Lemma ranges_fit z :
  In z ranges -> 0 <= z < 2 ^ RWBits.num_bits _acceleration_range.
Proof. intros [<-|[<-|[<-|[<-|[]]]]]; field_side. Qed.

(** X1.  A getter returns the name of the value last set: after an accepted
    [measurement_mode], [resolution_mode] or [acceleration_range]
    assignment of the integer [z], the property of the same name reads as
    the [z]-th name of its tuple, with one register read and no change of
    state. *)
Theorem getters_return_last_set (self : ADXL343) :
  (forall value z,
      int_value value = Some z -> In z measurement_modes ->
      let s := final (measurement_mode_setter value self) in
      exists name,
        nth_error measurement_mode_names (Z.to_nat z) = Some name /\
        measurement_mode s = (Ok name, s, [BusRead _POWER_CTL 1])) /\
  (forall value z,
      int_value value = Some z -> In z resolution_modes ->
      let s := final (resolution_mode_setter value self) in
      exists name,
        nth_error resolution_mode_names (Z.to_nat z) = Some name /\
        resolution_mode s = (Ok name, s, [BusRead _DATA_FORMAT 1])) /\
  (forall value z,
      int_value value = Some z -> In z ranges ->
      let s := final (acceleration_range_setter value self) in
      exists name,
        nth_error acceleration_range_names (Z.to_nat z) = Some name /\
        acceleration_range s = (Ok name, s, [BusRead _DATA_FORMAT 1])).
Proof.
  split; [|split]; intros value z Hv Hz s.
  - destruct (getter_run _measurement_mode measurement_mode_names s)
      as [name [Hn E]]; try field_side; [reflexivity|].
    exists name. split; [|exact E].
    rewrite <- Hn. subst s. rewrite (measurement_mode_setter_final _ _ _ Hv Hz).
    cbn [i2c_device]. change (RWBits.register_address _measurement_mode)
      with _POWER_CTL. rewrite store_same, extract_insert;
      try field_side; [reflexivity|now apply measurement_modes_fit].
  - destruct (getter_run _resolution_mode resolution_mode_names s)
      as [name [Hn E]]; try field_side; [reflexivity|].
    exists name. split; [|exact E].
    rewrite <- Hn. subst s.
    destruct (resolution_mode_setter_final self _ _ Hv Hz) as [r [_ ->]].
    cbn [i2c_device]. change (RWBits.register_address _resolution_mode)
      with _DATA_FORMAT. rewrite store_same, extract_insert;
      try field_side; [reflexivity|now apply resolution_modes_fit].
  - destruct (getter_run _acceleration_range acceleration_range_names s)
      as [name [Hn E]]; try field_side; [reflexivity|].
    exists name. split; [|exact E].
    rewrite <- Hn. subst s.
    destruct (acceleration_range_setter_final self _ _ Hv Hz) as [r [_ ->]].
    cbn [i2c_device]. change (RWBits.register_address _acceleration_range)
      with _DATA_FORMAT. rewrite store_same, extract_insert;
      try field_side; [reflexivity|now apply ranges_fit].
Qed.

Lemma getters_return_last_set_witness :
  int_value (PInt RANGE_16) = Some RANGE_16 /\ In RANGE_16 ranges /\
  acceleration_range
    (final (acceleration_range_setter (PInt RANGE_16) example_driver))
  = (Ok "RANGE_16",
     final (acceleration_range_setter (PInt RANGE_16) example_driver),
     [BusRead 0x31 1]).
Proof.
  assert (Hz : In RANGE_16 ranges) by (do 3 right; left; reflexivity).
  split; [reflexivity|]. split; [exact Hz|].
  destruct (proj2 (proj2 (getters_return_last_set example_driver))
              (PInt RANGE_16) RANGE_16 eq_refl Hz) as [name [Hn E]].
  injection Hn as <-. exact E.
Defined.

Lemma mask_bit_measurement_mode i :
  0 <= i -> i <> 3 -> Z.testbit (RWBits.bit_mask _measurement_mode) i = false.
Proof.
  intros Hi H3. rewrite testbit_bit_mask by field_side.
  destruct (Z.leb_spec (RWBits.lowest_bit _measurement_mode) i),
    (Z.ltb_spec i (RWBits.lowest_bit _measurement_mode
                   + RWBits.num_bits _measurement_mode));
    try reflexivity; field_side.
Qed.

Lemma mask_bit_resolution_mode i :
  0 <= i -> i <> 3 -> Z.testbit (RWBits.bit_mask _resolution_mode) i = false.
Proof.
  intros Hi H3. rewrite testbit_bit_mask by field_side.
  destruct (Z.leb_spec (RWBits.lowest_bit _resolution_mode) i),
    (Z.ltb_spec i (RWBits.lowest_bit _resolution_mode
                   + RWBits.num_bits _resolution_mode));
    try reflexivity; field_side.
Qed.

Lemma mask_bit_acceleration_range i :
  2 <= i -> Z.testbit (RWBits.bit_mask _acceleration_range) i = false.
Proof.
  intros Hi. rewrite testbit_bit_mask by field_side.
  destruct (Z.leb_spec (RWBits.lowest_bit _acceleration_range) i),
    (Z.ltb_spec i (RWBits.lowest_bit _acceleration_range
                   + RWBits.num_bits _acceleration_range));
    try reflexivity; field_side.
Qed.

(** X2.  Each setter, whatever value it is given, touches nothing but its
    own bits: [measurement_mode] only bit 3 of POWER_CTL (the cache stays),
    [resolution_mode] only bit 3 of DATA_FORMAT, [acceleration_range] only
    bits 0 and 1 of DATA_FORMAT.  Every other register and every other bit
    of the register's byte is as it was, so the two settings the setter is
    not for read the same before and after. *)
Theorem setters_touch_own_bits (self : ADXL343) (value : pyval) :
  (let s := final (measurement_mode_setter value self) in
   _cached_resolution s = _cached_resolution self /\
   (forall a, a <> _POWER_CTL -> i2c_device s a = i2c_device self a) /\
   (forall i, 0 <= i < 8 -> i <> 3 ->
              Z.testbit (i2c_device s _POWER_CTL) i
              = Z.testbit (i2c_device self _POWER_CTL) i) /\
   committed_resolution_mode s = committed_resolution_mode self /\
   committed_range s = committed_range self) /\
  (let s := final (resolution_mode_setter value self) in
   (forall a, a <> _DATA_FORMAT -> i2c_device s a = i2c_device self a) /\
   (forall i, 0 <= i < 8 -> i <> 3 ->
              Z.testbit (i2c_device s _DATA_FORMAT) i
              = Z.testbit (i2c_device self _DATA_FORMAT) i) /\
   committed_measurement_mode s = committed_measurement_mode self /\
   committed_range s = committed_range self) /\
  (let s := final (acceleration_range_setter value self) in
   (forall a, a <> _DATA_FORMAT -> i2c_device s a = i2c_device self a) /\
   (forall i, 2 <= i < 8 ->
              Z.testbit (i2c_device s _DATA_FORMAT) i
              = Z.testbit (i2c_device self _DATA_FORMAT) i) /\
   committed_measurement_mode s = committed_measurement_mode self /\
   committed_resolution_mode s = committed_resolution_mode self).
Proof.
  split; [|split]; intros s; subst s.
  - destruct (setter_cases value measurement_modes)
      as [[z [Hv Hz]]|[[f [-> Hf]]|Hn]].
    + rewrite (measurement_mode_setter_final _ _ _ Hv Hz).
      unfold committed_resolution_mode, committed_range.
      cbn [i2c_device _cached_resolution].
      rewrite store_same, !store_other by discriminate.
      repeat split; try reflexivity.
      * intros a Ha. now apply store_other.
      * intros i Hi H3. apply insert_other_bits; try field_side.
        -- now apply measurement_modes_fit.
        -- apply mask_bit_measurement_mode; lia.
    + rewrite (measurement_mode_setter_float _ _ Hf). cbn. tauto.
    + rewrite (measurement_mode_setter_reject _ _ Hn). cbn. tauto.
  - destruct (setter_cases value resolution_modes)
      as [[z [Hv Hz]]|[[f [-> Hf]]|Hn]].
    + destruct (resolution_mode_setter_final self _ _ Hv Hz) as [r [_ ->]].
      unfold committed_measurement_mode, committed_range.
      cbn [i2c_device _cached_resolution].
      rewrite store_same, !store_other by discriminate.
      repeat split; try reflexivity.
      * intros a Ha. now apply store_other.
      * intros i Hi H3. apply insert_other_bits; try field_side.
        -- now apply resolution_modes_fit.
        -- apply mask_bit_resolution_mode; lia.
      * apply extract_insert_other; try field_side.
        now apply resolution_modes_fit.
    + rewrite (resolution_mode_setter_float _ _ Hf). cbn. tauto.
    + rewrite (resolution_mode_setter_reject _ _ Hn). cbn. tauto.
  - destruct (setter_cases value ranges) as [[z [Hv Hz]]|[[f [-> Hf]]|Hn]].
    + destruct (acceleration_range_setter_final self _ _ Hv Hz) as [r [_ ->]].
      unfold committed_measurement_mode, committed_resolution_mode.
      cbn [i2c_device _cached_resolution].
      rewrite store_same, !store_other by discriminate.
      repeat split; try reflexivity.
      * intros a Ha. now apply store_other.
      * intros i Hi. apply insert_other_bits; try field_side.
        -- now apply ranges_fit.
        -- apply mask_bit_acceleration_range; lia.
      * apply extract_insert_other; try field_side.
        now apply ranges_fit.
    + destruct (acceleration_range_setter_float self f Hf)
        as [k [r [_ [_ [_ ->]]]]].
      cbn. tauto.
    + rewrite (acceleration_range_setter_reject _ _ Hn). cbn. tauto.
Qed.

Lemma setters_touch_own_bits_witness :
  2 <= 3 < 8 /\
  Z.testbit
    (i2c_device (final (acceleration_range_setter (PInt RANGE_2) example_driver))
       _DATA_FORMAT) 3
  = Z.testbit (i2c_device example_driver _DATA_FORMAT) 3.
Proof.
  assert (H : 2 <= 3 < 8) by lia.
  split; [exact H|].
  apply (setters_touch_own_bits example_driver (PInt RANGE_2)). exact H.
Defined.

(** X3.  The last assignment wins: two accepted assignments to the same
    property, one after the other, leave the cache and every register as the
    second one alone does. *)
Theorem setters_last_write_wins (self : ADXL343) (v1 v2 : pyval) (z1 z2 : Z) :
  int_value v1 = Some z1 -> int_value v2 = Some z2 ->
  (In z1 measurement_modes -> In z2 measurement_modes ->
   same_state
     (final (measurement_mode_setter v2 (final (measurement_mode_setter v1 self))))
     (final (measurement_mode_setter v2 self))) /\
  (In z1 resolution_modes -> In z2 resolution_modes ->
   same_state
     (final (resolution_mode_setter v2 (final (resolution_mode_setter v1 self))))
     (final (resolution_mode_setter v2 self))) /\
  (In z1 ranges -> In z2 ranges ->
   same_state
     (final (acceleration_range_setter v2 (final (acceleration_range_setter v1 self))))
     (final (acceleration_range_setter v2 self))).
Proof.
  intros Hv1 Hv2. split; [|split]; intros Hz1 Hz2.
  - rewrite !(measurement_mode_setter_final _ _ _ Hv2 Hz2).
    rewrite (measurement_mode_setter_final _ _ _ Hv1 Hz1).
    unfold same_state. cbn [i2c_device _cached_resolution].
    rewrite store_same.
    rewrite insert_insert by (try field_side; now apply measurement_modes_fit).
    split; [reflexivity|]. intros a. apply store_store.
  - destruct (resolution_mode_setter_final self _ _ Hv1 Hz1) as [r1 [_ E1]].
    destruct (resolution_mode_setter_final self _ _ Hv2 Hz2) as [r2 [T2 E2]].
    destruct (resolution_mode_setter_final
                (final (resolution_mode_setter v1 self)) _ _ Hv2 Hz2)
      as [r [T E]].
    rewrite E, E2. rewrite E1 in T |- *.
    unfold same_state, committed_range in *.
    cbn [i2c_device _cached_resolution] in *.
    rewrite store_same in T |- *.
    rewrite extract_insert_other in T
      by (try field_side; now apply resolution_modes_fit).
    rewrite insert_insert by (try field_side; now apply resolution_modes_fit).
    split; [congruence|]. intros a. apply store_store.
  - destruct (acceleration_range_setter_final self _ _ Hv1 Hz1) as [r1 [_ E1]].
    destruct (acceleration_range_setter_final self _ _ Hv2 Hz2) as [r2 [T2 E2]].
    destruct (acceleration_range_setter_final
                (final (acceleration_range_setter v1 self)) _ _ Hv2 Hz2)
      as [r [T E]].
    rewrite E, E2. rewrite E1 in T |- *.
    unfold same_state, committed_resolution_mode in *.
    cbn [i2c_device _cached_resolution] in *.
    rewrite store_same in T |- *.
    rewrite extract_insert_other in T
      by (try field_side; now apply ranges_fit).
    rewrite insert_insert by (try field_side; now apply ranges_fit).
    split; [congruence|]. intros a. apply store_store.
Qed.

Lemma setters_last_write_wins_witness :
  int_value (PInt RANGE_8) = Some RANGE_8 /\
  int_value (PInt RANGE_4) = Some RANGE_4 /\
  In RANGE_8 ranges /\ In RANGE_4 ranges /\
  same_state
    (final (acceleration_range_setter (PInt RANGE_4)
              (final (acceleration_range_setter (PInt RANGE_8)
                        example_low_res_driver))))
    (final (acceleration_range_setter (PInt RANGE_4) example_low_res_driver)).
Proof.
  assert (H8 : In RANGE_8 ranges) by (do 2 right; left; reflexivity).
  assert (H4 : In RANGE_4 ranges) by (right; left; reflexivity).
  split; [reflexivity|]. split; [reflexivity|].
  split; [exact H8|]. split; [exact H4|].
  apply (setters_last_write_wins example_low_res_driver
           (PInt RANGE_8) (PInt RANGE_4) RANGE_8 RANGE_4 eq_refl eq_refl);
    assumption.
Defined.

(** X4.  Accepted assignments to different properties can be made in either
    order: the cache and every register end up the same.  For the coupled
    pair, range [zr] and resolution mode [zm], both orders end with the
    cache holding the table's value for [zm] and [zr]. *)
Theorem setters_commute
    (self : ADXL343) (vm vr vp : pyval) (zm zr zp : Z) :
  int_value vm = Some zm -> In zm resolution_modes ->
  int_value vr = Some zr -> In zr ranges ->
  int_value vp = Some zp -> In zp measurement_modes ->
  let mode_last :=
    final (resolution_mode_setter vm (final (acceleration_range_setter vr self))) in
  let range_last :=
    final (acceleration_range_setter vr (final (resolution_mode_setter vm self))) in
  same_state mode_last range_last /\
  _cached_resolution mode_last = table zm zr /\
  _cached_resolution range_last = table zm zr /\
  same_state
    (final (measurement_mode_setter vp (final (resolution_mode_setter vm self))))
    (final (resolution_mode_setter vm (final (measurement_mode_setter vp self)))) /\
  same_state
    (final (measurement_mode_setter vp (final (acceleration_range_setter vr self))))
    (final (acceleration_range_setter vr (final (measurement_mode_setter vp self)))).
Proof.
  intros Hvm Hzm Hvr Hzr Hvp Hzp mode_last range_last.
  subst mode_last range_last.
  pose proof (resolution_modes_fit _ Hzm) as Fm.
  pose proof (ranges_fit _ Hzr) as Fr.
  destruct (acceleration_range_setter_final self _ _ Hvr Hzr) as [r1 [T1 E1]].
  destruct (resolution_mode_setter_final self _ _ Hvm Hzm) as [r2 [T2 E2]].
  destruct (resolution_mode_setter_final
              (final (acceleration_range_setter vr self)) _ _ Hvm Hzm)
    as [r3 [T3 E3]].
  destruct (acceleration_range_setter_final
              (final (resolution_mode_setter vm self)) _ _ Hvr Hzr)
    as [r4 [T4 E4]].
  destruct (resolution_mode_setter_final
              (final (measurement_mode_setter vp self)) _ _ Hvm Hzm)
    as [r5 [T5 E5]].
  destruct (acceleration_range_setter_final
              (final (measurement_mode_setter vp self)) _ _ Hvr Hzr)
    as [r6 [T6 E6]].
  rewrite E3, E4, E5, E6.
  rewrite !(measurement_mode_setter_final _ _ _ Hvp Hzp).
  rewrite E1 in T3 |- *. rewrite E2 in T4 |- *.
  rewrite (measurement_mode_setter_final _ _ _ Hvp Hzp) in T5, T6.
  unfold same_state, committed_range, committed_resolution_mode in *.
  cbn [i2c_device _cached_resolution] in *.
  rewrite ?store_same in *.
  rewrite store_other in T5, T6 by discriminate.
  rewrite !(store_other _ _POWER_CTL _ _DATA_FORMAT) by discriminate.
  rewrite !(store_other _ _DATA_FORMAT _ _POWER_CTL) by discriminate.
  rewrite extract_insert in T3, T4 by field_side.
  repeat split.
  - congruence.
  - intros a. rewrite !store_store. f_equal.
    apply insert_commute; field_side.
  - congruence.
  - congruence.
  - congruence.
  - intros a. apply store_swap. discriminate.
  - congruence.
  - intros a. apply store_swap. discriminate.
Qed.

Lemma setters_commute_witness :
  int_value (PInt LOW_RES) = Some LOW_RES /\ In LOW_RES resolution_modes /\
  int_value (PInt RANGE_4) = Some RANGE_4 /\ In RANGE_4 ranges /\
  int_value (PInt STANDBY) = Some STANDBY /\ In STANDBY measurement_modes /\
  _cached_resolution
    (final (resolution_mode_setter (PInt LOW_RES)
              (final (acceleration_range_setter (PInt RANGE_4) example_driver))))
  = Some 0.008%float /\
  _cached_resolution
    (final (acceleration_range_setter (PInt RANGE_4)
              (final (resolution_mode_setter (PInt LOW_RES) example_driver))))
  = Some 0.008%float.
Proof.
  assert (Hm : In LOW_RES resolution_modes) by (left; reflexivity).
  assert (Hr : In RANGE_4 ranges) by (right; left; reflexivity).
  assert (Hp : In STANDBY measurement_modes) by (left; reflexivity).
  pose proof (setters_commute example_driver (PInt LOW_RES) (PInt RANGE_4)
                (PInt STANDBY) LOW_RES RANGE_4 STANDBY
                eq_refl Hm eq_refl Hr eq_refl Hp) as H.
  repeat (split; [reflexivity || assumption|]).
  split; apply H.
Defined.

(** X5.  [True] and [False] are accepted by every setter and act as the
    integers 1 and 0: [READY]/[STANDBY], [HIGH_RES]/[LOW_RES] and
    [RANGE_4]/[RANGE_2]. *)
Theorem setters_accept_bool (self : ADXL343) (b : bool) :
  measurement_mode_setter (PBool b) self
  = measurement_mode_setter (PInt (Z.b2z b)) self /\
  resolution_mode_setter (PBool b) self
  = resolution_mode_setter (PInt (Z.b2z b)) self /\
  acceleration_range_setter (PBool b) self
  = acceleration_range_setter (PInt (Z.b2z b)) self /\
  outcome (measurement_mode_setter (PBool b) self) = Ok tt /\
  outcome (resolution_mode_setter (PBool b) self) = Ok tt /\
  outcome (acceleration_range_setter (PBool b) self) = Ok tt.
Proof.
  assert (Hb1 : In (Z.b2z b) measurement_modes)
    by (destruct b; [right; left|left]; reflexivity).
  assert (Hb2 : In (Z.b2z b) resolution_modes)
    by (destruct b; [right; left|left]; reflexivity).
  assert (Hb4 : In (Z.b2z b) ranges)
    by (destruct b; [right; left|left]; reflexivity).
  destruct (resolution_mode_setter_run self (PBool b) _ eq_refl Hb2)
    as [r [T E]].
  destruct (resolution_mode_setter_run self (PInt (Z.b2z b)) _ eq_refl Hb2)
    as [r' [T' E']].
  destruct (acceleration_range_setter_run self (PBool b) _ eq_refl Hb4)
    as [q [U F]].
  destruct (acceleration_range_setter_run self (PInt (Z.b2z b)) _ eq_refl Hb4)
    as [q' [U' F']].
  rewrite E, E', F, F'.
  rewrite (measurement_mode_setter_run self (PBool b) _ eq_refl Hb1).
  rewrite (measurement_mode_setter_run self (PInt (Z.b2z b)) _ eq_refl Hb1).
  assert (r = r') by congruence. assert (q = q') by congruence. subst r' q'.
  repeat split.
Qed.



(** X7.  The [h] format of the data registers is a bijection between byte
    pairs and signed 16-bit counts: two bytes, low byte first, unpack to a
    count in [-32768, 32767] that is negative exactly when the high byte is
    128 or more and whose bytes are the two it came from; and the bytes of
    a signed 16-bit count unpack to that count. *)
Theorem unpack_h_bijective :
  (forall lo hi,
      byte lo -> byte hi ->
      int16 (Struct.unpack_h lo hi) /\
      (Struct.unpack_h lo hi < 0 <-> 128 <= hi) /\
      Struct.pack_h (Struct.unpack_h lo hi) = (lo, hi)) /\
  (forall x,
      int16 x ->
      byte (fst (Struct.pack_h x)) /\ byte (snd (Struct.pack_h x)) /\
      Struct.unpack_h (fst (Struct.pack_h x)) (snd (Struct.pack_h x)) = x).
Proof.
  split.
  - intros lo hi Hlo Hhi. unfold byte, int16, Struct.unpack_h, Struct.pack_h in *.
    destruct (Z.ltb_spec (lo + 256 * hi) 32768) as [H|H].
    + split; [lia|]. split; [lia|].
      f_equal; Z.div_mod_to_equations; lia.
    + split; [lia|]. split; [lia|].
      f_equal; Z.div_mod_to_equations; lia.
  - intros x Hx. split; [|split].
    + unfold byte, Struct.pack_h. cbn [fst]. apply Z.mod_pos_bound. lia.
    + unfold byte, Struct.pack_h. cbn [snd]. apply Z.mod_pos_bound. lia.
    + now apply unpack_pack_h.
Qed.

Lemma unpack_h_bijective_witness :
  byte 0x0C /\ byte 0xFE /\ Struct.unpack_h 0x0C 0xFE = -500 /\
  Struct.pack_h (Struct.unpack_h 0x0C 0xFE) = (0x0C, 0xFE).
Proof.
  assert (H1 : byte 0x0C) by (unfold byte; lia).
  assert (H2 : byte 0xFE) by (unfold byte; lia).
  split; [exact H1|]. split; [exact H2|]. split; [reflexivity|].
  apply (proj1 unpack_h_bijective 0x0C 0xFE H1 H2).
Defined.

Lemma acceleration_trace self : trace (acceleration self) = [BusRead _ACC 6].
Proof.
  rewrite acceleration_eq. destruct (_cached_resolution self); [|reflexivity].
  destruct (raw_sample (i2c_device self)) as [[x y] z]. reflexivity.
Qed.

Lemma measurement_mode_trace self :
  trace (measurement_mode self) = [BusRead _POWER_CTL 1].
Proof.
  destruct (getter_run _measurement_mode measurement_mode_names self)
    as [name [_ E]]; try field_side; [reflexivity|].
  unfold measurement_mode. fold measurement_mode_names. now rewrite E.
Qed.

Lemma resolution_mode_trace self :
  trace (resolution_mode self) = [BusRead _DATA_FORMAT 1].
Proof.
  destruct (getter_run _resolution_mode resolution_mode_names self)
    as [name [_ E]]; try field_side; [reflexivity|].
  unfold resolution_mode. fold resolution_mode_names. now rewrite E.
Qed.

Lemma acceleration_range_trace self :
  trace (acceleration_range self) = [BusRead _DATA_FORMAT 1].
Proof.
  destruct (getter_run _acceleration_range acceleration_range_names self)
    as [name [_ E]]; try field_side; [reflexivity|].
  unfold acceleration_range. fold acceleration_range_names. now rewrite E.
Qed.

(** No public call changes a register other than POWER_CTL and
    DATA_FORMAT. *)
Lemma perform_other_registers c self a :
  a <> _POWER_CTL -> a <> _DATA_FORMAT ->
  i2c_device (perform c self) a = i2c_device self a.
Proof.
  intros Hp Hd. destruct c as [|v| |v| |v|]; cbn [perform].
  - now rewrite measurement_mode_final.
  - destruct (setter_cases v measurement_modes) as [[z [Hv Hz]]|[[f [-> Hf]]|Hn]].
    + rewrite (measurement_mode_setter_final _ _ _ Hv Hz). cbn [i2c_device].
      now apply store_other.
    + now rewrite (measurement_mode_setter_float _ _ Hf).
    + now rewrite (measurement_mode_setter_reject _ _ Hn).
  - now rewrite resolution_mode_final.
  - destruct (setter_cases v resolution_modes) as [[z [Hv Hz]]|[[f [-> Hf]]|Hn]].
    + destruct (resolution_mode_setter_final self _ _ Hv Hz) as [r [_ ->]].
      cbn [i2c_device]. now apply store_other.
    + now rewrite (resolution_mode_setter_float _ _ Hf).
    + now rewrite (resolution_mode_setter_reject _ _ Hn).
  - now rewrite acceleration_range_final.
  - destruct (setter_cases v ranges) as [[z [Hv Hz]]|[[f [-> Hf]]|Hn]].
    + destruct (acceleration_range_setter_final self _ _ Hv Hz) as [r [_ ->]].
      cbn [i2c_device]. now apply store_other.
    + destruct (acceleration_range_setter_float self f Hf)
        as [k [r [_ [_ [_ ->]]]]].
      reflexivity.
    + now rewrite (acceleration_range_setter_reject _ _ Hn).
  - now rewrite acceleration_final.
Qed.

(** X8.  What the public calls never do.  A call performs at most one bus
    write, and a write stores a byte in POWER_CTL or in DATA_FORMAT: the
    identity and data registers, and every other register, are never
    written and keep their contents.  The three getters and [acceleration]
    write nothing and leave the whole state as it was. *)
Theorem calls_write_configuration_only (c : call) (self : ADXL343) :
  (List.length (writes (call_trace c self)) <= 1)%nat /\
  (forall e, In e (writes (call_trace c self)) ->
             exists v, byte v /\
                       (e = BusWrite _POWER_CTL v \/ e = BusWrite _DATA_FORMAT v)) /\
  (forall a, a <> _POWER_CTL -> a <> _DATA_FORMAT ->
             i2c_device (perform c self) a = i2c_device self a) /\
  match c with
  | Get_measurement_mode | Get_resolution_mode | Get_acceleration_range
  | Get_acceleration =>
      writes (call_trace c self) = [] /\ perform c self = self
  | _ => True
  end.
Proof.
  assert (Hnone : forall t : list event,
             writes t = [] ->
             (List.length (writes t) <= 1)%nat /\
             (forall e, In e (writes t) ->
                exists v, byte v /\
                  (e = BusWrite _POWER_CTL v \/ e = BusWrite _DATA_FORMAT v))).
  { intros t ->. split; [cbn; lia|intros e []]. }
  assert (Hone : forall (t : list event) v,
             byte v ->
             writes t = [BusWrite _POWER_CTL v]
             \/ writes t = [BusWrite _DATA_FORMAT v] ->
             (List.length (writes t) <= 1)%nat /\
             (forall e, In e (writes t) ->
                exists v, byte v /\
                  (e = BusWrite _POWER_CTL v \/ e = BusWrite _DATA_FORMAT v))).
  { intros t v Hv [-> | ->]; (split; [cbn; lia|]);
      intros e [<-|[]]; exists v; auto. }
  rewrite <- and_assoc. split; [|split].
  - destruct c as [|v| |v| |v|]; cbn [call_trace].
    + apply Hnone. now rewrite measurement_mode_trace.
    + destruct (setter_cases v measurement_modes) as [[z [Hv Hz]]|[[f [-> Hf]]|Hn]].
      * rewrite (measurement_mode_setter_run self _ _ Hv Hz).
        eapply Hone; [apply (insert_byte _measurement_mode)|left; reflexivity].
      * rewrite (measurement_mode_setter_float _ _ Hf). now apply Hnone.
      * rewrite (measurement_mode_setter_reject _ _ Hn). now apply Hnone.
    + apply Hnone. now rewrite resolution_mode_trace.
    + destruct (setter_cases v resolution_modes) as [[z [Hv Hz]]|[[f [-> Hf]]|Hn]].
      * destruct (resolution_mode_setter_run self _ _ Hv Hz) as [r [_ ->]].
        eapply Hone; [apply (insert_byte _resolution_mode)|right].
        unfold trace. cbn [snd]. destruct (z =? LOW_RES); reflexivity.
      * rewrite (resolution_mode_setter_float _ _ Hf). now apply Hnone.
      * rewrite (resolution_mode_setter_reject _ _ Hn). now apply Hnone.
    + apply Hnone. now rewrite acceleration_range_trace.
    + destruct (setter_cases v ranges) as [[z [Hv Hz]]|[[f [-> Hf]]|Hn]].
      * destruct (acceleration_range_setter_run self _ _ Hv Hz) as [r [_ ->]].
        eapply Hone; [apply (insert_byte _acceleration_range)|right].
        reflexivity.
      * destruct (acceleration_range_setter_float self f Hf)
          as [k [r [_ [_ [_ ->]]]]].
        now apply Hnone.
      * rewrite (acceleration_range_setter_reject _ _ Hn). now apply Hnone.
    + apply Hnone. now rewrite acceleration_trace.
  - intros a. apply perform_other_registers.
  - destruct c; cbn [call_trace perform]; try exact I.
    + now rewrite measurement_mode_trace, measurement_mode_final.
    + now rewrite resolution_mode_trace, resolution_mode_final.
    + now rewrite acceleration_range_trace, acceleration_range_final.
    + now rewrite acceleration_trace, acceleration_final.
Qed.

Lemma calls_write_configuration_only_witness :
  _REG_WHOAMI <> _POWER_CTL /\ _REG_WHOAMI <> _DATA_FORMAT /\
  writes (call_trace (Set_resolution_mode (PInt LOW_RES)) example_driver)
  = [BusWrite 0x31 0x02] /\
  i2c_device (perform (Set_resolution_mode (PInt LOW_RES)) example_driver)
    _REG_WHOAMI
  = 0xE5.
Proof.
  assert (H1 : _REG_WHOAMI <> _POWER_CTL) by discriminate.
  assert (H2 : _REG_WHOAMI <> _DATA_FORMAT) by discriminate.
  split; [exact H1|]. split; [exact H2|]. split; [reflexivity|].
  rewrite (proj1 (proj2 (proj2
             (calls_write_configuration_only
                (Set_resolution_mode (PInt LOW_RES)) example_driver)))
             _REG_WHOAMI H1 H2).
  reflexivity.
Defined.

(** The identity register of a driven device still reads 0xE5. *)
Lemma reachable_identity self :
  reachable self -> i2c_device self _REG_WHOAMI = 0xE5.
Proof.
  induction 1 as [i2c_bus Hok|c self Hr IH].
  - destruct (Z.eq_dec (i2c_bus _REG_WHOAMI) 0xE5) as [Hid|Hid].
    + rewrite (init_run _ Hid). unfold final. cbn [fst snd i2c_device].
      now rewrite !store_other by discriminate.
    + rewrite (init_fail _ Hid) in Hok. discriminate.
  - rewrite perform_other_registers by discriminate. exact IH.
Qed.

(** X9.  Constructing a second driver on the device of a driver in use
    succeeds and gives a reachable state: [READY], [HIGH_RES], the range the
    device had, and a cache of 0.004.  When the first driver already was in
    [READY] and [HIGH_RES], the new one has the same cache and register
    contents. *)
Theorem construction_on_used_device (self : ADXL343) :
  reachable self ->
  let x := ADXL343_new (i2c_device self) in
  outcome x = Ok tt /\
  reachable (final x) /\
  committed_measurement_mode (final x) = READY /\
  committed_resolution_mode (final x) = HIGH_RES /\
  committed_range (final x) = committed_range self /\
  _cached_resolution (final x) = Some 0.004%float /\
  (committed_measurement_mode self = READY ->
   committed_resolution_mode self = HIGH_RES ->
   same_state (final x) self).
Proof.
  intros Hr x.
  pose proof (reachable_identity _ Hr) as Hid.
  assert (Hok : outcome x = Ok tt) by (subst x; now rewrite (init_run _ Hid)).
  split; [exact Hok|]. split; [now apply reachable_new|].
  apply reachable_settled in Hr. destruct Hr as [[r [Hc Ht]] [Hp Hd]].
  subst x. rewrite (init_run _ Hid).
  unfold final, same_state, committed_measurement_mode,
    committed_resolution_mode, committed_range in *.
  cbn [fst snd i2c_device _cached_resolution].
  rewrite store_same, store_other, store_same by discriminate.
  split; [apply extract_insert; field_side|].
  split; [apply extract_insert; field_side|].
  split; [apply extract_insert_other; field_side|].
  split; [reflexivity|].
  intros Hm Hh. specialize (Ht Hh). subst r. split; [congruence|].
  intros a. rewrite <- Hm at 1. rewrite <- Hh at 1.
  rewrite !insert_extract by (field_side || assumption).
  unfold Bus.store.
  destruct (Z.eqb_spec a _DATA_FORMAT) as [->|_]; [reflexivity|].
  destruct (Z.eqb_spec a _POWER_CTL) as [->|_]; reflexivity.
Qed.

Lemma construction_on_used_device_witness :
  reachable example_low_res_driver /\
  committed_range example_low_res_driver = RANGE_16 /\
  outcome (ADXL343_new (i2c_device example_low_res_driver)) = Ok tt /\
  committed_range (final (ADXL343_new (i2c_device example_low_res_driver)))
  = RANGE_16 /\
  _cached_resolution (final (ADXL343_new (i2c_device example_low_res_driver)))
  = Some 0.004%float.
Proof.
  assert (Hr : reachable example_low_res_driver).
  { do 2 apply reachable_call. apply reachable_new. reflexivity. }
  pose proof (construction_on_used_device example_low_res_driver Hr) as H.
  split; [exact Hr|]. split; [reflexivity|]. split; [apply H|].
  split; [reflexivity|apply H].
Defined.

Lemma land_8 v : Z.land v 8 = if Z.testbit v 3 then 8 else 0.
Proof.
  apply Z.bits_inj'; intros i Hi. rewrite Z.land_spec.
  change 8 with (2 ^ 3). rewrite Z.pow2_bits_eqb by lia.
  destruct (Z.eqb_spec 3 i) as [<-|Hne].
  - destruct (Z.testbit v 3); reflexivity.
  - rewrite andb_false_r. destruct (Z.testbit v 3).
    + rewrite Z.pow2_bits_eqb by lia. symmetry. now apply Z.eqb_neq.
    + now rewrite Z.testbit_0_l.
Qed.

Lemma extract_measurement_mode v :
  RWBits.extract _measurement_mode v = Z.b2z (Z.testbit v 3).
Proof.
  apply Z.bits_inj'; intros i Hi.
  rewrite testbit_extract by field_side.
  change (RWBits.lowest_bit _measurement_mode) with 3.
  change (RWBits.num_bits _measurement_mode) with 1.
  destruct (Z.ltb_spec i 1).
  - replace i with 0 by lia. rewrite andb_true_r. cbn [Z.add].
    destruct (Z.testbit v 3); reflexivity.
  - rewrite andb_false_r. symmetry.
    destruct (Z.testbit v 3); cbn [Z.b2z].
    + apply (small_testbit 1 1); lia.
    + apply Z.testbit_0_l.
Qed.

(** X10.  In every reachable driver state [needed_info] returns the
    POWER_CTL byte, a number from 0 to 255, after one register read and
    without changing the state; [measurement_mode] reads ["READY"] exactly
    when bit 3 of that byte is set ([needed_info & 8 == 8]) and ["STANDBY"]
    exactly when it is clear. *)
Theorem needed_info_power_ctl (self : ADXL343) :
  reachable self ->
  exists v,
    needed_info self = (Ok v, self, [BusRead _POWER_CTL 1]) /\
    byte v /\
    (Z.land v 8 = 8 <-> outcome (measurement_mode self) = Ok "READY") /\
    (Z.land v 8 = 0 <-> outcome (measurement_mode self) = Ok "STANDBY").
Proof.
  intros Hr. apply reachable_settled in Hr. destruct Hr as [_ [Hp _]].
  exists (i2c_device self _POWER_CTL). split; [reflexivity|].
  split; [exact Hp|].
  destruct (getter_run _measurement_mode measurement_mode_names self)
    as [name [Hn E]]; try field_side; [reflexivity|].
  change (RWBits.register_address _measurement_mode) with _POWER_CTL in Hn.
  unfold measurement_mode. fold measurement_mode_names. rewrite E.
  unfold outcome. cbn [fst].
  rewrite extract_measurement_mode in Hn. rewrite land_8.
  destruct (Z.testbit (i2c_device self _POWER_CTL) 3);
    cbn in Hn; injection Hn as <-; split; split;
    intros H; try reflexivity; discriminate H.
Qed.

Lemma needed_info_power_ctl_witness :
  reachable example_driver /\
  needed_info example_driver = (Ok 0x08, example_driver, [BusRead 0x2D 1]) /\
  outcome (measurement_mode example_driver) = Ok "READY".
Proof.
  assert (Hr : reachable example_driver).
  { apply reachable_new. reflexivity. }
  split; [exact Hr|]. split; [reflexivity|].
  destruct (needed_info_power_ctl example_driver Hr) as [v [E [_ [H _]]]].
  injection E as <-. apply H. reflexivity.
Defined.

(** X11.  [acceleration] looks at nothing but the cache and the six data
    registers: two driver states that agree on them get the same result and
    perform the same bus read.  In particular the measurement mode is not
    consulted: after any [measurement_mode] assignment, also [STANDBY],
    [acceleration] returns what it returned before. *)
Theorem acceleration_reads_cache_and_data (a b : ADXL343) (value : pyval) :
  (_cached_resolution a = _cached_resolution b ->
   (forall k, 0 <= k < 6 ->
              i2c_device a (_ACC + k) = i2c_device b (_ACC + k)) ->
   outcome (acceleration a) = outcome (acceleration b) /\
   trace (acceleration a) = trace (acceleration b)) /\
  outcome (acceleration (final (measurement_mode_setter value a)))
  = outcome (acceleration a).
Proof.
  assert (Hgen : forall s t : ADXL343,
             _cached_resolution s = _cached_resolution t ->
             (forall k, 0 <= k < 6 ->
                        i2c_device s (_ACC + k) = i2c_device t (_ACC + k)) ->
             outcome (acceleration s) = outcome (acceleration t)).
  { intros s t Hc Hd. rewrite !acceleration_eq, Hc. unfold raw_sample.
    pose proof (Hd 0 ltac:(lia)) as H0. rewrite Z.add_0_r in H0.
    rewrite H0, (Hd 1), (Hd 2), (Hd 3), (Hd 4), (Hd 5) by lia.
    destruct (_cached_resolution t); reflexivity. }
  split.
  - intros Hc Hd. split; [now apply Hgen|].
    now rewrite !acceleration_trace.
  - apply Hgen.
    + destruct (setter_cases value measurement_modes)
        as [[z [Hv Hz]]|[[f [-> Hf]]|Hn]].
      * now rewrite (measurement_mode_setter_final _ _ _ Hv Hz).
      * now rewrite (measurement_mode_setter_float _ _ Hf).
      * now rewrite (measurement_mode_setter_reject _ _ Hn).
    + intros k Hk.
      destruct (setter_cases value measurement_modes)
        as [[z [Hv Hz]]|[[f [-> Hf]]|Hn]].
      * rewrite (measurement_mode_setter_final _ _ _ Hv Hz). cbn [i2c_device].
        apply store_other. unfold _ACC, _POWER_CTL. lia.
      * now rewrite (measurement_mode_setter_float _ _ Hf).
      * now rewrite (measurement_mode_setter_reject _ _ Hn).
Qed.

Lemma acceleration_reads_cache_and_data_witness :
  outcome (acceleration (final (measurement_mode_setter (PInt STANDBY)
                                  example_driver)))
  = Ok (39.2266%float, (-19.6133)%float, 0%float).
Proof.
  rewrite (proj2 (acceleration_reads_cache_and_data
                    example_driver example_driver (PInt STANDBY))).
  reflexivity.
Defined.
